(** * Power-system simulation engine for 16 Psyche: a shallow embedding

    The engine (the module that exports [runSimulation]) is a TypeScript
    module of pure numeric functions and one driver loop.  Every value it
    manipulates is a JavaScript [number].

    ** The number model

    A JavaScript number is an IEEE-754 double.  This development keeps the
    part of that arithmetic the engine's control flow depends on and
    idealises the rest:

    - the special values NaN, +Infinity and -Infinity are values of the
      model, with the propagation rules of IEEE-754 and of ECMAScript's
      [Math] functions (0/0, Infinity - Infinity, Infinity * 0, comparisons
      with NaN, [Math.max] and [Math.min] of NaN, ...);
    - a finite value is an exact real number: rounding, overflow and
      underflow are not modelled, and zero carries no sign (a nonzero
      dividend over zero gives the infinity of the dividend's sign);
    - [Math.cos] and [Math.pow] are the real cosine and power on finite
      arguments, with ECMAScript's table of special cases around them.

    Finite values are real numbers, rather than machine floats, so that the
    facts the properties below rest on (the order, the cosine, powers) are
    those of analysis.  Comparisons of reals are decided classically: the
    definitions are functions, and concrete runs are evaluated by rewriting
    rather than by computation.

    Not modelled: the limit some engines put on the number of arguments of
    a spread call ([Math.max(...xs)] on a very long array).

    Functions keep the names they have in the source. *)

From Stdlib Require Import Reals Lra Lia List ZArith Bool String.
Import ListNotations.

Open Scope R_scope.

(** ** Numbers *)

Inductive num : Type :=
| NaN : num
| PInf : num
| NInf : num
| Fin : R -> num.

Declare Scope num_scope.
Delimit Scope num_scope with num.
Bind Scope num_scope with num.

Definition is_nan (x : num) : bool :=
  match x with NaN => true | _ => false end.

Definition is_finite (x : num) : bool :=
  match x with Fin _ => true | _ => false end.

(** Decidable comparisons on reals, as booleans. *)
Definition Rltb (a b : R) : bool := if Rlt_dec a b then true else false.
Definition Reqb (a b : R) : bool := if Req_dec_T a b then true else false.

(** Rounding a real toward zero ([Int_part] is the floor). *)
Definition Rtrunc (r : R) : Z :=
  if Rlt_dec r 0 then (- Int_part (- r))%Z else Int_part r.

(** The least integer not below [r]. *)
Definition Rceil (r : R) : Z := (- Int_part (- r))%Z.

Definition is_integer (r : R) : bool := Reqb r (IZR (Int_part r)).

Definition is_odd_integer (r : R) : bool :=
  is_integer r && Z.odd (Int_part r).

(** *** Arithmetic operators: addition, subtraction, product, quotient,
    remainder *)

Definition neg (x : num) : num :=
  match x with
  | NaN => NaN
  | PInf => NInf
  | NInf => PInf
  | Fin a => Fin (- a)
  end.

Definition add (x y : num) : num :=
  match x, y with
  | NaN, _ | _, NaN => NaN
  | PInf, NInf | NInf, PInf => NaN
  | PInf, _ | _, PInf => PInf
  | NInf, _ | _, NInf => NInf
  | Fin a, Fin b => Fin (a + b)
  end.

Definition sub (x y : num) : num := add x (neg y).

(** An infinity times a finite factor: the sign follows the factor, and a
    zero factor gives NaN. *)
Definition scale_inf (positive : bool) (b : R) : num :=
  if Reqb b 0 then NaN
  else if Bool.eqb positive (Rltb 0 b) then PInf else NInf.

Definition mul (x y : num) : num :=
  match x, y with
  | NaN, _ | _, NaN => NaN
  | PInf, PInf | NInf, NInf => PInf
  | PInf, NInf | NInf, PInf => NInf
  | PInf, Fin b | Fin b, PInf => scale_inf true b
  | NInf, Fin b | Fin b, NInf => scale_inf false b
  | Fin a, Fin b => Fin (a * b)
  end.

Definition div (x y : num) : num :=
  match x, y with
  | NaN, _ | _, NaN => NaN
  | PInf, PInf | PInf, NInf | NInf, PInf | NInf, NInf => NaN
  | PInf, Fin b => if Rltb b 0 then NInf else PInf
  | NInf, Fin b => if Rltb b 0 then PInf else NInf
  | Fin _, PInf | Fin _, NInf => Fin 0
  | Fin a, Fin b =>
      if Reqb b 0 then
        if Reqb a 0 then NaN else if Rltb 0 a then PInf else NInf
      else Fin (a / b)
  end.

(** The remainder operator (written [mod] below): the result has the sign
    of the dividend. *)
Definition rem (x y : num) : num :=
  match x, y with
  | NaN, _ | _, NaN => NaN
  | PInf, _ | NInf, _ => NaN
  | Fin a, PInf | Fin a, NInf => Fin a
  | Fin a, Fin b =>
      if Reqb b 0 then NaN else Fin (a - b * IZR (Rtrunc (a / b)))
  end.

(** *** Relational operators: [<] and [>]; a comparison with NaN is false. *)

Definition ltb (x y : num) : bool :=
  match x, y with
  | NaN, _ | _, NaN => false
  | _, NInf => false
  | PInf, _ => false
  | NInf, _ => true
  | _, PInf => true
  | Fin a, Fin b => Rltb a b
  end.

Definition gtb (x y : num) : bool := ltb y x.

(** [<=] and [>=], used to state properties (the engine itself only uses
    the strict operators). *)
Definition leb (x y : num) : bool :=
  match x, y with
  | NaN, _ | _, NaN => false
  | NInf, _ => true
  | _, PInf => true
  | _, NInf => false
  | PInf, _ => false
  | Fin a, Fin b => negb (Rltb b a)
  end.

Definition geb (x y : num) : bool := leb y x.

Infix "+" := add : num_scope.
Infix "-" := sub : num_scope.
Infix "*" := mul : num_scope.
Infix "/" := div : num_scope.
Infix "mod" := rem (at level 40, no associativity) : num_scope.
Infix "<?" := ltb (at level 70, no associativity) : num_scope.
Infix ">?" := gtb (at level 70, no associativity) : num_scope.
Infix "<=?" := leb (at level 70, no associativity) : num_scope.
Infix ">=?" := geb (at level 70, no associativity) : num_scope.

(** The loop counter, a number that takes the values 0, 1, 2, ... *)
Definition of_nat (n : nat) : num := Fin (INR n).

(** *** The [Math] object *)

Definition Math_PI : num := Fin PI.

Definition Math_cos (x : num) : num :=
  match x with
  | Fin a => Fin (cos a)
  | _ => NaN
  end.

Definition Math_floor (x : num) : num :=
  match x with
  | Fin a => Fin (IZR (Int_part a))
  | _ => x
  end.

Definition Math_max (x y : num) : num :=
  match x, y with
  | NaN, _ | _, NaN => NaN
  | _, _ => if ltb x y then y else x
  end.

Definition Math_min (x y : num) : num :=
  match x, y with
  | NaN, _ | _, NaN => NaN
  | _, _ => if ltb y x then y else x
  end.

(** [Math.max(...xs)] and [Math.min(...xs)]: the empty list gives -Infinity
    and +Infinity. *)
Definition Math_max_all (xs : list num) : num := fold_left Math_max xs NInf.
Definition Math_min_all (xs : list num) : num := fold_left Math_min xs PInf.

(** [Math.pow] and the operator [**] (ECMAScript's Number::exponentiate).
    The case order is that of the language specification. *)
Definition Math_pow (base exponent : num) : num :=
  match exponent with
  | NaN => NaN
  | Fin y =>
      if Reqb y 0 then Fin 1
      else
        match base with
        | NaN => NaN
        | PInf => if Rltb 0 y then PInf else Fin 0
        | NInf =>
            if Rltb 0 y then (if is_odd_integer y then NInf else PInf)
            else Fin 0
        | Fin x =>
            if Reqb x 0 then (if Rltb 0 y then Fin 0 else PInf)
            else if Rltb 0 x then Fin (Rpower x y)
            else if is_integer y then Fin (powerRZ x (Int_part y))
            else NaN
        end
  | PInf =>
      match base with
      | NaN => NaN
      | PInf | NInf => PInf
      | Fin x =>
          if Rltb 1 (Rabs x) then PInf
          else if Reqb (Rabs x) 1 then NaN else Fin 0
      end
  | NInf =>
      match base with
      | NaN => NaN
      | PInf | NInf => Fin 0
      | Fin x =>
          if Rltb 1 (Rabs x) then Fin 0
          else if Reqb (Rabs x) 1 then NaN else PInf
      end
  end.

(** ** The technology records and the configuration *)

Inductive Era : Type := historical | current | theoretical.

Module Concentrator.
Record t : Type := {
  name : string;
  concentration_ratio : num;
  efficiency : num;
  mass_per_m2 : num;
  trl : num;
  era : Era
}.
End Concentrator.

Module PV.
Record t : Type := {
  name : string;
  efficiency : num;
  temp_coefficient : num;
  degradation_rate : num;
  mass_per_m2 : num;
  trl : num;
  era : Era
}.
End PV.

Module Battery.
Record t : Type := {
  name : string;
  energy_density : num;
  cycle_life : num;
  charge_efficiency : num;
  discharge_efficiency : num;
  self_discharge_rate : num;
  mass_per_wh : num;
  trl : num;
  era : Era
}.
End Battery.

Definition ConcentratorTechnology : Type := Concentrator.t.
Definition PVTechnology : Type := PV.t.
Definition BatteryTechnology : Type := Battery.t.

(** [runSimulation] tests [pvCell] and [battery] for presence although their
    declared types are not nullable, so all three components are optional
    here: [None] is a null or undefined reference. *)
Record SimulationConfig : Type := {
  concentrator : option ConcentratorTechnology;
  pvCell : option PVTechnology;
  battery : option BatteryTechnology;
  concentratorArea : num;
  pvArea : num;
  batteryCapacity : num;
  baseLoad : num;
  durationHours : num;
  yearsInOperation : num
}.

Record Metrics : Type := {
  avg_power_generated : num;
  peak_power_generated : num;
  avg_power_consumed : num;
  peak_power_consumed : num;
  energy_balance : num;
  min_soc : num;
  final_soc : option num;
  system_health : nat;
  viable : bool
}.

Record SimulationResult : Type := {
  time : list num;
  power_generated : list num;
  power_consumed : list num;
  battery_soc : list num;
  temperature : list num;
  metrics : Metrics
}.

(** ** Environment *)

Module PSYCHE_CONSTANTS.
Definition SOLAR_CONSTANT_EARTH : num := Fin 1361.
Definition DISTANCE_AU : num := Fin 2.9.
Definition ROTATION_PERIOD : num := Fin 4.2.
Definition TEMP_MIN : num := Fin 100.
Definition TEMP_MAX : num := Fin 270.
Definition TEMP_REF : num := Fin 298.
End PSYCHE_CONSTANTS.

Open Scope num_scope.

Definition getSolarIrradiance : num :=
  PSYCHE_CONSTANTS.SOLAR_CONSTANT_EARTH
  / Math_pow PSYCHE_CONSTANTS.DISTANCE_AU (Fin 2).

Definition getSunAngle (timeHours : num) : num :=
  let rotationsPerHour := Fin 1 / PSYCHE_CONSTANTS.ROTATION_PERIOD in
  let angle :=
    (timeHours * rotationsPerHour * Fin 2 * Math_PI) mod (Fin 2 * Math_PI) in
  angle.

Definition getSurfaceTemperature (sunAngle : num) : num :=
  let tempRange := PSYCHE_CONSTANTS.TEMP_MAX - PSYCHE_CONSTANTS.TEMP_MIN in
  let temp :=
    PSYCHE_CONSTANTS.TEMP_MIN
    + tempRange * Math_max (Fin 0) (Math_cos sunAngle) in
  temp.

(** ** Generation *)

Definition calculateConcentratorPower
    (timeHours concentratorArea concentratorEfficiency : num) : num :=
  let irradiance := getSolarIrradiance in
  let sunAngle := getSunAngle timeHours in
  let cosineLoss := Math_max (Fin 0) (Math_cos sunAngle) in
  irradiance * concentratorArea * concentratorEfficiency * cosineLoss.

(** The second and third parameters are declared and never read. *)
Definition calculatePVPower
    (concentratedPower _concentrationRatio _pvArea
     pvEfficiency tempCoefficient surfaceTemp : num) : num :=
  let tempDelta := surfaceTemp - PSYCHE_CONSTANTS.TEMP_REF in
  let efficiencyAdjustment := Fin 1 + tempCoefficient * tempDelta in
  let actualEfficiency :=
    pvEfficiency * Math_max (Fin 0.1) efficiencyAdjustment in
  concentratedPower * actualEfficiency.

(** ** Load *)

(** [totalLoad] is a mutable local: each conditional update is a rebinding. *)
Definition calculatePowerConsumption (timeHours baseLoad : num) : num :=
  let sunAngle := getSunAngle timeHours in
  let isDay := Math_cos sunAngle >? Fin 0 in
  let totalLoad := baseLoad in
  let totalLoad :=
    if isDay then totalLoad + baseLoad * Fin 1.5 else totalLoad in
  let commCycle := timeHours mod Fin 6 in
  let totalLoad :=
    if commCycle <? Fin 0.5 then totalLoad + baseLoad * Fin 0.8
    else totalLoad in
  let totalLoad :=
    if negb isDay then totalLoad + baseLoad * Fin 1.0 else totalLoad in
  totalLoad.

(** ** Battery *)

Definition updateBatterySOC
    (currentSOC powerNet batteryCapacity
     chargeEfficiency dischargeEfficiency timeStep : num) : num :=
  let energyChange := powerNet * timeStep in
  let energyChange :=
    if energyChange >? Fin 0 then energyChange * chargeEfficiency
    else energyChange / dischargeEfficiency in
  let socChange := energyChange / batteryCapacity in
  let newSOC := currentSOC + socChange in
  let newSOC := Math_max (Fin 0.15) (Math_min (Fin 0.95) newSOC) in
  newSOC.

(** ** The driver *)

(** What a call of [runSimulation] does: it throws an [Error], or it
    returns a result, or its loop bound is +Infinity and the loop guard
    never fails, so that no result is ever produced. *)
Inductive Outcome : Type :=
| Throws (message : string)
| Unbounded
| Returns (result : SimulationResult).

(** The mutable locals of [runSimulation]: the running state of charge and
    the five arrays the loop pushes to. *)
Module Vars.
Record t : Type := {
  currentSOC : num;
  time : list num;
  powerGenerated : list num;
  powerConsumed : list num;
  batterySOC : list num;
  temperature : list num
}.
End Vars.

Definition timeStep : num := Fin 0.1.

(** Number of iterations of [for (let step = 0; step < numSteps; step++)]:
    the guard is false at once for NaN and -Infinity, and never false for
    +Infinity ([None]). *)
Definition trip_count (numSteps : num) : option nat :=
  match numSteps with
  | NaN | NInf => Some 0%nat
  | PInf => None
  | Fin r => Some (Z.to_nat (Rceil r))
  end.

Definition for_loop {State : Type}
    (numSteps : num) (body : State -> nat -> State) (init : State)
  : option State :=
  match trip_count numSteps with
  | None => None
  | Some n => Some (fold_left body (seq 0 n) init)
  end.

(** The same loop run with its guard tested before every iteration, for at
    most [fuel] iterations; [None] when the fuel runs out.  [for_loop] is
    its limit (lemmas [for_loop_guarded_enough_fuel] and
    [for_loop_guarded_unbounded]). *)
Fixpoint for_loop_guarded {State : Type}
    (fuel : nat) (numSteps : num) (body : State -> nat -> State)
    (step : nat) (vars : State) : option State :=
  if of_nat step <? numSteps then
    match fuel with
    | O => None
    | S fuel' =>
        for_loop_guarded fuel' numSteps body (S step) (body vars step)
    end
  else Some vars.

(** The generated power of one step (the [if (config.concentrator)]
    statement of the loop body). *)
Definition step_pvPower
    (config : SimulationConfig) (pv : PVTechnology)
    (concentratorEff pvEff t surfaceTemp : num) : num :=
  match concentrator config with
  | Some c =>
      let concentratorPower :=
        calculateConcentratorPower t (concentratorArea config)
          concentratorEff in
      calculatePVPower concentratorPower
        (Concentrator.concentration_ratio c) (pvArea config)
        pvEff (PV.temp_coefficient pv) surfaceTemp
  | None =>
      let irradiance := getSolarIrradiance in
      let sunAngleCalc := getSunAngle t in
      let cosineLoss := Math_max (Fin 0) (Math_cos sunAngleCalc) in
      let incidentPower := irradiance * pvArea config * cosineLoss in
      let tempDelta := surfaceTemp - PSYCHE_CONSTANTS.TEMP_REF in
      let efficiencyAdjustment :=
        Fin 1 + PV.temp_coefficient pv * tempDelta in
      let actualEfficiency :=
        pvEff * Math_max (Fin 0.1) efficiencyAdjustment in
      incidentPower * actualEfficiency
  end.

Definition loop_body
    (config : SimulationConfig) (pv : PVTechnology) (bat : BatteryTechnology)
    (concentratorEff pvEff : num) (vars : Vars.t) (step : nat) : Vars.t :=
  let t := of_nat step * timeStep in
  let sunAngle := getSunAngle t in
  let surfaceTemp := getSurfaceTemperature sunAngle in
  let pvPower := step_pvPower config pv concentratorEff pvEff t surfaceTemp in
  let loadPower := calculatePowerConsumption t (baseLoad config) in
  let netPower := pvPower - loadPower in
  let currentSOC :=
    updateBatterySOC (Vars.currentSOC vars) netPower (batteryCapacity config)
      (Battery.charge_efficiency bat) (Battery.discharge_efficiency bat)
      timeStep in
  {| Vars.currentSOC := currentSOC;
     Vars.time := Vars.time vars ++ [t];
     Vars.powerGenerated := Vars.powerGenerated vars ++ [pvPower];
     Vars.powerConsumed := Vars.powerConsumed vars ++ [loadPower];
     Vars.batterySOC := Vars.batterySOC vars ++ [currentSOC];
     Vars.temperature := Vars.temperature vars ++ [surfaceTemp] |}.

Definition initial_vars : Vars.t :=
  {| Vars.currentSOC := Fin 0.80;
     Vars.time := [];
     Vars.powerGenerated := [];
     Vars.powerConsumed := [];
     Vars.batterySOC := [];
     Vars.temperature := [] |}.

(** [xs.reduce((a, b) => a + b, 0)] *)
Definition sum_all (xs : list num) : num :=
  fold_left (fun a b => a + b) xs (Fin 0).

(** [xs.reduce((sum, p) => sum + p * timeStep, 0)] *)
Definition total_energy (xs : list num) : num :=
  fold_left (fun sum p => sum + p * timeStep) xs (Fin 0).

(** [xs[xs.length - 1]]: undefined ([None]) on the empty array. *)
Definition last_element (xs : list num) : option num :=
  match xs with
  | [] => None
  | _ => nth_error xs (List.length xs - 1)
  end.

Definition bump (condition : bool) (score : nat) : nat :=
  if condition then S score else score.

(** The metrics block and the returned object. *)
Definition evaluate (vars : Vars.t) : SimulationResult :=
  let powerGenerated := Vars.powerGenerated vars in
  let powerConsumed := Vars.powerConsumed vars in
  let batterySOC := Vars.batterySOC vars in
  let avgPowerGenerated :=
    sum_all powerGenerated / of_nat (List.length powerGenerated) in
  let peakPowerGenerated := Math_max_all powerGenerated in
  let avgPowerConsumed :=
    sum_all powerConsumed / of_nat (List.length powerConsumed) in
  let peakPowerConsumed := Math_max_all powerConsumed in
  let totalEnergyGenerated := total_energy powerGenerated in
  let totalEnergyConsumed := total_energy powerConsumed in
  let energyBalance := totalEnergyGenerated - totalEnergyConsumed in
  let minSOC := Math_min_all batterySOC in
  let finalSOC := last_element batterySOC in
  let healthScore := 0%nat in
  let healthScore := bump (minSOC >? Fin 0.20) healthScore in
  let healthScore := bump (minSOC >? Fin 0.40) healthScore in
  let healthScore := bump (energyBalance >? Fin 0) healthScore in
  let healthScore :=
    bump (match finalSOC with
          | Some soc => soc >? Fin 0.70
          | None => false
          end) healthScore in
  let healthScore :=
    bump (avgPowerGenerated >? avgPowerConsumed * Fin 1.2) healthScore in
  let viable := (minSOC >? Fin 0.20) && (energyBalance >? Fin 0) in
  {| time := Vars.time vars;
     power_generated := powerGenerated;
     power_consumed := powerConsumed;
     battery_soc := batterySOC;
     temperature := Vars.temperature vars;
     metrics :=
       {| avg_power_generated := avgPowerGenerated;
          peak_power_generated := peakPowerGenerated;
          avg_power_consumed := avgPowerConsumed;
          peak_power_consumed := peakPowerConsumed;
          energy_balance := energyBalance;
          min_soc := minSOC;
          final_soc := finalSOC;
          system_health := healthScore;
          viable := viable |} |}.

(** Degradation, applied once before the loop. *)
Definition degraded_concentratorEff (config : SimulationConfig) : num :=
  match concentrator config with
  | Some c =>
      Concentrator.efficiency c
      * Math_pow (Fin 1 - Fin 0.001) (yearsInOperation config)
  | None => Fin 0
  end.

Definition degraded_pvEff (config : SimulationConfig) (pv : PVTechnology)
  : num :=
  PV.efficiency pv
  * Math_pow (Fin 1 - PV.degradation_rate pv) (yearsInOperation config).

Definition runSimulation (config : SimulationConfig) : Outcome :=
  match pvCell config with
  | None => Throws "Cannot run simulation without photovoltaic cells"
  | Some pv =>
      match battery config with
      | None => Throws "Cannot run simulation without battery"
      | Some bat =>
          let numSteps := Math_floor (durationHours config / timeStep) in
          let concentratorEff := degraded_concentratorEff config in
          let pvEff := degraded_pvEff config pv in
          match
            for_loop numSteps
              (loop_body config pv bat concentratorEff pvEff) initial_vars
          with
          | None => Unbounded
          | Some vars => Returns (evaluate vars)
          end
      end
  end.

(** ** Vocabulary of the specification *)

(** A configuration is accepted when both mandatory components are there. *)
Definition accepted (config : SimulationConfig) : bool :=
  match pvCell config, battery config with
  | Some _, Some _ => true
  | _, _ => false
  end.

(** The safe band of the state of charge. *)
Definition in_range (soc : num) : bool :=
  (Fin 0.15 <=? soc) && (soc <=? Fin 0.95).

(** The specification's illumination factor, [max(0, cos(sun_angle))]. *)
Definition illumination_factor (t : num) : num :=
  Math_max (Fin 0) (Math_cos (getSunAngle t)).

(** Simulated time of step [i]. *)
Definition time_of_step (i : nat) : num := of_nat i * timeStep.

(** Side conditions on numeric inputs. *)
Definition nonneg (x : num) : Prop := (Fin 0 <=? x) = true.
Definition unit_interval (x : num) : Prop :=
  (Fin 0 <=? x) && (x <=? Fin 1) = true.
Definition finite (x : num) : Prop := is_finite x = true.
Definition positive_finite (x : num) : Prop :=
  is_finite x && (Fin 0 <? x) = true.
Definition strictly_inside_unit (x : num) : Prop :=
  (Fin 0 <? x) && (x <? Fin 1) = true.

(** *** The battery integrator as the specification words it

    The specification names two cases, [energy > 0] and [energy <= 0].
    Neither holds when the energy is NaN; no adjustment is described for
    it, and [adjusted_energy] leaves the energy as it is. *)

Definition clamp (x lo hi : num) : num :=
  if x <? lo then lo else if x >? hi then hi else x.

Definition adjusted_energy
    (net_power time_step charge_efficiency discharge_efficiency : num) : num :=
  let energy := net_power * time_step in
  if energy >? Fin 0 then net_power * time_step * charge_efficiency
  else if energy <=? Fin 0 then (net_power * time_step) / discharge_efficiency
  else energy.

Definition integrator_spec
    (soc net_power capacity charge_efficiency discharge_efficiency
     time_step : num) : num :=
  clamp
    (soc
     + adjusted_energy net_power time_step charge_efficiency
         discharge_efficiency / capacity)
    (Fin 0.15) (Fin 0.95).

(** *** The load model as the specification words it *)

Definition load_model_spec (t b : num) : num :=
  let total := b in
  let total :=
    if illumination_factor t >? Fin 0 then total + Fin 1.5 * b else total in
  let total :=
    if t mod Fin 6 <? Fin 0.5 then total + Fin 0.8 * b else total in
  let total :=
    if illumination_factor t <=? Fin 0 then total + Fin 1.0 * b
    else total in
  total.

(** *** Configurations that differ in one field *)


Definition with_pvArea (config : SimulationConfig) (area : num)
  : SimulationConfig :=
  {| concentrator := concentrator config;
     pvCell := pvCell config;
     battery := battery config;
     concentratorArea := concentratorArea config;
     pvArea := area;
     batteryCapacity := batteryCapacity config;
     baseLoad := baseLoad config;
     durationHours := durationHours config;
     yearsInOperation := yearsInOperation config |}.


Definition concentrator_efficiency_is
    (P : num -> Prop) (config : SimulationConfig) : Prop :=
  match concentrator config with
  | Some c => P (Concentrator.efficiency c)
  | None => True
  end.

(** *** Catalog entries and presets used as concrete inputs *)

Definition Linear_Fresnel_Reflector : ConcentratorTechnology :=
  {| Concentrator.name := "Linear Fresnel Reflector";
     Concentrator.concentration_ratio := Fin 15;
     Concentrator.efficiency := Fin 0.85;
     Concentrator.mass_per_m2 := Fin 2.8;
     Concentrator.trl := Fin 7;
     Concentrator.era := current |}.

Definition Triple_junction_GaAs : PVTechnology :=
  {| PV.name := "Triple-junction GaAs (3J)";
     PV.efficiency := Fin 0.32;
     PV.temp_coefficient := Fin (-0.004);
     PV.degradation_rate := Fin 0.005;
     PV.mass_per_m2 := Fin 0.7;
     PV.trl := Fin 9;
     PV.era := current |}.

Definition Quad_junction_IMM : PVTechnology :=
  {| PV.name := "Quad-junction IMM";
     PV.efficiency := Fin 0.34;
     PV.temp_coefficient := Fin (-0.003);
     PV.degradation_rate := Fin 0.003;
     PV.mass_per_m2 := Fin 0.6;
     PV.trl := Fin 8;
     PV.era := current |}.

Definition Lithium_ion_NMC : BatteryTechnology :=
  {| Battery.name := "Lithium-ion (NMC)";
     Battery.energy_density := Fin 220;
     Battery.cycle_life := Fin 10000;
     Battery.charge_efficiency := Fin 0.96;
     Battery.discharge_efficiency := Fin 0.97;
     Battery.self_discharge_rate := Fin 0.005;
     Battery.mass_per_wh := Fin 0.0045;
     Battery.trl := Fin 9;
     Battery.era := current |}.

(** The "Baseline Mission" preset. *)
Definition preset_baseline : SimulationConfig :=
  {| concentrator := Some Linear_Fresnel_Reflector;
     pvCell := Some Triple_junction_GaAs;
     battery := Some Lithium_ion_NMC;
     concentratorArea := Fin 3.0;
     pvArea := Fin 1.0;
     batteryCapacity := Fin 8000;
     baseLoad := Fin 100;
     durationHours := Fin 48;
     yearsInOperation := Fin 0 |}.

(** The "No Concentrator" preset. *)
Definition preset_no_concentrator : SimulationConfig :=
  {| concentrator := None;
     pvCell := Some Quad_junction_IMM;
     battery := Some Lithium_ion_NMC;
     concentratorArea := Fin 0;
     pvArea := Fin 8.0;
     batteryCapacity := Fin 10000;
     baseLoad := Fin 100;
     durationHours := Fin 48;
     yearsInOperation := Fin 0 |}.

(** Variations of the presets, as a user of the form can enter them (an
    emptied numeric field is read as 0). *)

Definition custom_no_concentrator
    (pv : PVTechnology)
    (pvArea batteryCapacity baseLoad durationHours yearsInOperation : num)
  : SimulationConfig :=
  {| concentrator := None;
     pvCell := Some pv;
     battery := Some Lithium_ion_NMC;
     concentratorArea := Fin 0;
     pvArea := pvArea;
     batteryCapacity := batteryCapacity;
     baseLoad := baseLoad;
     durationHours := durationHours;
     yearsInOperation := yearsInOperation |}.

(** No array, no load and no capacity. *)
Definition config_all_zero : SimulationConfig :=
  custom_no_concentrator Quad_junction_IMM
    (Fin 0) (Fin 0) (Fin 0) (Fin 48) (Fin 0).


(** An infinite duration. *)
Definition config_infinite_duration : SimulationConfig :=
  custom_no_concentrator Quad_junction_IMM
    (Fin 8.0) (Fin 10000) (Fin 100) PInf (Fin 0).




(** *** Closed forms on finite arguments

    The real numbers the environment and generation functions compute when
    every argument is finite. *)

Definition irradiance_R : R := (1361 / Rpower 2.9 2)%R.

Definition sun_angle_R (t : R) : R :=
  (let x := t * (1 / 4.2) * 2 * PI in
   x - 2 * PI * IZR (Rtrunc (x / (2 * PI))))%R.

Definition illumination_R (t : R) : R := Rmax 0 (cos (sun_angle_R t)).

Definition surface_temperature_R (t : R) : R :=
  (100 + (270 + - (100)) * illumination_R t)%R.

Definition derating_R (temp_coefficient t : R) : R :=
  Rmax 0.1 (1 + temp_coefficient * (surface_temperature_R t + - (298)))%R.

Definition step_time_R (i : nat) : R := (INR i * 0.1)%R.

(** The sum the load model returns, by day or night and inside or outside
    the communication window. *)
Definition load_sum (day comm : bool) (b : num) : num :=
  match day, comm with
  | true, true => b + b * Fin 1.5 + b * Fin 0.8
  | true, false => b + b * Fin 1.5
  | false, true => b + b * Fin 0.8 + b * Fin 1.0
  | false, false => b + b * Fin 1.0
  end.

(** A value that is not below zero: NaN, +Infinity, or a finite
    nonnegative number. *)
Definition not_negative (x : num) : Prop := (x <? Fin 0) = false.

(** *** Conditions on the inputs of the generation model *)

(** Areas not below zero, efficiencies and the degradation rate between 0
    and 1. *)
Definition generation_inputs_in_range (config : SimulationConfig) : Prop :=
  nonneg (concentratorArea config)
  /\ nonneg (pvArea config)
  /\ concentrator_efficiency_is unit_interval config
  /\ match pvCell config with
     | Some pv =>
         unit_interval (PV.efficiency pv)
         /\ unit_interval (PV.degradation_rate pv)
     | None => True
     end.

(** Finite areas and temperature coefficient, and a finite age that is not
    negative. *)
Definition generation_inputs_finite (config : SimulationConfig) : Prop :=
  finite (concentratorArea config)
  /\ finite (pvArea config)
  /\ finite (yearsInOperation config)
  /\ nonneg (yearsInOperation config)
  /\ match pvCell config with
     | Some pv => finite (PV.temp_coefficient pv)
     | None => True
     end.


(** *** Conditions on the inputs of the battery integrator *)

(** A finite base load, a finite and strictly positive capacity and
    discharge efficiency, a finite charge efficiency. *)
Definition battery_inputs_finite (config : SimulationConfig) : Prop :=
  finite (baseLoad config)
  /\ positive_finite (batteryCapacity config)
  /\ match battery config with
     | Some bat =>
         finite (Battery.charge_efficiency bat)
         /\ positive_finite (Battery.discharge_efficiency bat)
     | None => True
     end.

(** *** The loop, unrolled

    The variables after [n] iterations, and the values the loop computes at
    step [i] that do not depend on the state of charge. *)

Definition vars_after
    (config : SimulationConfig) (pv : PVTechnology) (bat : BatteryTechnology)
    (concentratorEff pvEff : num) (n : nat) : Vars.t :=
  fold_left (loop_body config pv bat concentratorEff pvEff) (seq 0 n)
    initial_vars.

Definition temperature_at (i : nat) : num :=
  getSurfaceTemperature (getSunAngle (time_of_step i)).

Definition generated_at
    (config : SimulationConfig) (pv : PVTechnology)
    (concentratorEff pvEff : num) (i : nat) : num :=
  step_pvPower config pv concentratorEff pvEff (time_of_step i)
    (temperature_at i).

Definition consumed_at (config : SimulationConfig) (i : nat) : num :=
  calculatePowerConsumption (time_of_step i) (baseLoad config).

(** A state of charge is well formed when it is NaN or inside the band. *)
Definition nan_or_in_range (soc : num) : Prop :=
  is_nan soc = true \/ in_range soc = true.

(** ** The technology catalog, the presets and the form

    The catalog and the presets are the constant tables of the data
    modules; the form is the [Simulator] component, whose handlers are
    modelled by their net effect on the component's state. *)

Definition Parabolic_Dish_Concentrator : ConcentratorTechnology :=
  {| Concentrator.name := "Parabolic Dish Concentrator";
     Concentrator.concentration_ratio := Fin 20;
     Concentrator.efficiency := Fin 0.82;
     Concentrator.mass_per_m2 := Fin 3.5;
     Concentrator.trl := Fin 9;
     Concentrator.era := current |}.

Definition Compound_Parabolic_Concentrator_CPC : ConcentratorTechnology :=
  {| Concentrator.name := "Compound Parabolic Concentrator (CPC)";
     Concentrator.concentration_ratio := Fin 10;
     Concentrator.efficiency := Fin 0.88;
     Concentrator.mass_per_m2 := Fin 2.2;
     Concentrator.trl := Fin 8;
     Concentrator.era := current |}.

Definition Parabolic_Trough : ConcentratorTechnology :=
  {| Concentrator.name := "Parabolic Trough";
     Concentrator.concentration_ratio := Fin 5;
     Concentrator.efficiency := Fin 0.75;
     Concentrator.mass_per_m2 := Fin 4.0;
     Concentrator.trl := Fin 9;
     Concentrator.era := historical |}.

Definition Inflatable_Fresnel_Lens : ConcentratorTechnology :=
  {| Concentrator.name := "Inflatable Fresnel Lens";
     Concentrator.concentration_ratio := Fin 25;
     Concentrator.efficiency := Fin 0.78;
     Concentrator.mass_per_m2 := Fin 1.5;
     Concentrator.trl := Fin 5;
     Concentrator.era := theoretical |}.

Definition Holographic_Concentrator : ConcentratorTechnology :=
  {| Concentrator.name := "Holographic Concentrator";
     Concentrator.concentration_ratio := Fin 30;
     Concentrator.efficiency := Fin 0.75;
     Concentrator.mass_per_m2 := Fin 1.8;
     Concentrator.trl := Fin 3;
     Concentrator.era := theoretical |}.

Definition Micro_Concentrator_Array : ConcentratorTechnology :=
  {| Concentrator.name := "Micro-Concentrator Array";
     Concentrator.concentration_ratio := Fin 12;
     Concentrator.efficiency := Fin 0.80;
     Concentrator.mass_per_m2 := Fin 2.5;
     Concentrator.trl := Fin 6;
     Concentrator.era := current |}.

Definition Reflective_Film_Concentrator : ConcentratorTechnology :=
  {| Concentrator.name := "Reflective Film Concentrator";
     Concentrator.concentration_ratio := Fin 8;
     Concentrator.efficiency := Fin 0.83;
     Concentrator.mass_per_m2 := Fin 2.0;
     Concentrator.trl := Fin 7;
     Concentrator.era := current |}.

Definition Advanced_Fresnel_System : ConcentratorTechnology :=
  {| Concentrator.name := "Advanced Fresnel System";
     Concentrator.concentration_ratio := Fin 18;
     Concentrator.efficiency := Fin 0.87;
     Concentrator.mass_per_m2 := Fin 2.6;
     Concentrator.trl := Fin 6;
     Concentrator.era := current |}.

Definition Silicon_Si : PVTechnology :=
  {| PV.name := "Silicon (Si)";
     PV.efficiency := Fin 0.15;
     PV.temp_coefficient := Fin (-0.005);
     PV.degradation_rate := Fin 0.015;
     PV.mass_per_m2 := Fin 1.2;
     PV.trl := Fin 9;
     PV.era := historical |}.

Definition Gallium_Arsenide_GaAs : PVTechnology :=
  {| PV.name := "Gallium Arsenide (GaAs)";
     PV.efficiency := Fin 0.28;
     PV.temp_coefficient := Fin (-0.004);
     PV.degradation_rate := Fin 0.008;
     PV.mass_per_m2 := Fin 0.8;
     PV.trl := Fin 9;
     PV.era := current |}.

Definition Perovskite : PVTechnology :=
  {| PV.name := "Perovskite";
     PV.efficiency := Fin 0.25;
     PV.temp_coefficient := Fin (-0.003);
     PV.degradation_rate := Fin 0.012;
     PV.mass_per_m2 := Fin 0.4;
     PV.trl := Fin 5;
     PV.era := theoretical |}.

Definition Quantum_Dot_Cells : PVTechnology :=
  {| PV.name := "Quantum Dot Cells";
     PV.efficiency := Fin 0.45;
     PV.temp_coefficient := Fin (-0.002);
     PV.degradation_rate := Fin 0.004;
     PV.mass_per_m2 := Fin 0.5;
     PV.trl := Fin 5;
     PV.era := theoretical |}.

Definition CIGS_Copper_Indium_Gallium_Selenide : PVTechnology :=
  {| PV.name := "CIGS (Copper Indium Gallium Selenide)";
     PV.efficiency := Fin 0.22;
     PV.temp_coefficient := Fin (-0.004);
     PV.degradation_rate := Fin 0.010;
     PV.mass_per_m2 := Fin 0.9;
     PV.trl := Fin 8;
     PV.era := current |}.

Definition Organic_Photovoltaics : PVTechnology :=
  {| PV.name := "Organic Photovoltaics";
     PV.efficiency := Fin 0.18;
     PV.temp_coefficient := Fin (-0.003);
     PV.degradation_rate := Fin 0.020;
     PV.mass_per_m2 := Fin 0.3;
     PV.trl := Fin 6;
     PV.era := theoretical |}.

Definition Tandem_Silicon_Perovskite : PVTechnology :=
  {| PV.name := "Tandem Silicon/Perovskite";
     PV.efficiency := Fin 0.30;
     PV.temp_coefficient := Fin (-0.003);
     PV.degradation_rate := Fin 0.008;
     PV.mass_per_m2 := Fin 0.8;
     PV.trl := Fin 6;
     PV.era := theoretical |}.

Definition Advanced_Multi_junction_5J : PVTechnology :=
  {| PV.name := "Advanced Multi-junction (5J+)";
     PV.efficiency := Fin 0.38;
     PV.temp_coefficient := Fin (-0.002);
     PV.degradation_rate := Fin 0.003;
     PV.mass_per_m2 := Fin 0.6;
     PV.trl := Fin 7;
     PV.era := current |}.

Definition Concentrator_PV_CPV_Cells : PVTechnology :=
  {| PV.name := "Concentrator PV (CPV) Cells";
     PV.efficiency := Fin 0.40;
     PV.temp_coefficient := Fin (-0.003);
     PV.degradation_rate := Fin 0.004;
     PV.mass_per_m2 := Fin 0.5;
     PV.trl := Fin 7;
     PV.era := current |}.

Definition Nickel_Cadmium_NiCd : BatteryTechnology :=
  {| Battery.name := "Nickel-Cadmium (NiCd)";
     Battery.energy_density := Fin 50;
     Battery.cycle_life := Fin 2000;
     Battery.charge_efficiency := Fin 0.90;
     Battery.discharge_efficiency := Fin 0.95;
     Battery.self_discharge_rate := Fin 0.05;
     Battery.mass_per_wh := Fin 0.020;
     Battery.trl := Fin 9;
     Battery.era := historical |}.

Definition Nickel_Hydrogen_NiH2 : BatteryTechnology :=
  {| Battery.name := "Nickel-Hydrogen (NiH2)";
     Battery.energy_density := Fin 60;
     Battery.cycle_life := Fin 20000;
     Battery.charge_efficiency := Fin 0.90;
     Battery.discharge_efficiency := Fin 0.95;
     Battery.self_discharge_rate := Fin 0.02;
     Battery.mass_per_wh := Fin 0.017;
     Battery.trl := Fin 9;
     Battery.era := current |}.

Definition Lithium_ion_NCA : BatteryTechnology :=
  {| Battery.name := "Lithium-ion (NCA)";
     Battery.energy_density := Fin 240;
     Battery.cycle_life := Fin 8000;
     Battery.charge_efficiency := Fin 0.95;
     Battery.discharge_efficiency := Fin 0.97;
     Battery.self_discharge_rate := Fin 0.005;
     Battery.mass_per_wh := Fin 0.0042;
     Battery.trl := Fin 9;
     Battery.era := current |}.

Definition Lithium_ion_LFP : BatteryTechnology :=
  {| Battery.name := "Lithium-ion (LFP)";
     Battery.energy_density := Fin 150;
     Battery.cycle_life := Fin 15000;
     Battery.charge_efficiency := Fin 0.98;
     Battery.discharge_efficiency := Fin 0.99;
     Battery.self_discharge_rate := Fin 0.003;
     Battery.mass_per_wh := Fin 0.0067;
     Battery.trl := Fin 9;
     Battery.era := current |}.

Definition Lithium_Sulfur : BatteryTechnology :=
  {| Battery.name := "Lithium-Sulfur";
     Battery.energy_density := Fin 300;
     Battery.cycle_life := Fin 5000;
     Battery.charge_efficiency := Fin 0.93;
     Battery.discharge_efficiency := Fin 0.95;
     Battery.self_discharge_rate := Fin 0.010;
     Battery.mass_per_wh := Fin 0.0033;
     Battery.trl := Fin 6;
     Battery.era := theoretical |}.

Definition Solid_State_Lithium : BatteryTechnology :=
  {| Battery.name := "Solid-State Lithium";
     Battery.energy_density := Fin 400;
     Battery.cycle_life := Fin 100000;
     Battery.charge_efficiency := Fin 0.98;
     Battery.discharge_efficiency := Fin 0.99;
     Battery.self_discharge_rate := Fin 0.001;
     Battery.mass_per_wh := Fin 0.0025;
     Battery.trl := Fin 6;
     Battery.era := theoretical |}.

Definition Lithium_Air : BatteryTechnology :=
  {| Battery.name := "Lithium-Air";
     Battery.energy_density := Fin 500;
     Battery.cycle_life := Fin 3000;
     Battery.charge_efficiency := Fin 0.85;
     Battery.discharge_efficiency := Fin 0.90;
     Battery.self_discharge_rate := Fin 0.015;
     Battery.mass_per_wh := Fin 0.0020;
     Battery.trl := Fin 5;
     Battery.era := theoretical |}.

Definition Sodium_ion : BatteryTechnology :=
  {| Battery.name := "Sodium-ion";
     Battery.energy_density := Fin 120;
     Battery.cycle_life := Fin 8000;
     Battery.charge_efficiency := Fin 0.94;
     Battery.discharge_efficiency := Fin 0.96;
     Battery.self_discharge_rate := Fin 0.008;
     Battery.mass_per_wh := Fin 0.0083;
     Battery.trl := Fin 7;
     Battery.era := current |}.

Definition Aluminum_ion : BatteryTechnology :=
  {| Battery.name := "Aluminum-ion";
     Battery.energy_density := Fin 200;
     Battery.cycle_life := Fin 50000;
     Battery.charge_efficiency := Fin 0.92;
     Battery.discharge_efficiency := Fin 0.94;
     Battery.self_discharge_rate := Fin 0.012;
     Battery.mass_per_wh := Fin 0.0050;
     Battery.trl := Fin 5;
     Battery.era := theoretical |}.

Definition Flow_Battery_Vanadium : BatteryTechnology :=
  {| Battery.name := "Flow Battery (Vanadium)";
     Battery.energy_density := Fin 40;
     Battery.cycle_life := Fin 30000;
     Battery.charge_efficiency := Fin 0.85;
     Battery.discharge_efficiency := Fin 0.90;
     Battery.self_discharge_rate := Fin 0.001;
     Battery.mass_per_wh := Fin 0.025;
     Battery.trl := Fin 8;
     Battery.era := current |}.

Definition Zinc_Bromine_Flow : BatteryTechnology :=
  {| Battery.name := "Zinc-Bromine Flow";
     Battery.energy_density := Fin 65;
     Battery.cycle_life := Fin 25000;
     Battery.charge_efficiency := Fin 0.88;
     Battery.discharge_efficiency := Fin 0.92;
     Battery.self_discharge_rate := Fin 0.002;
     Battery.mass_per_wh := Fin 0.015;
     Battery.trl := Fin 7;
     Battery.era := current |}.

Definition concentrators : list ConcentratorTechnology :=
  [ Parabolic_Dish_Concentrator;
    Linear_Fresnel_Reflector;
    Compound_Parabolic_Concentrator_CPC;
    Parabolic_Trough;
    Inflatable_Fresnel_Lens;
    Holographic_Concentrator;
    Micro_Concentrator_Array;
    Reflective_Film_Concentrator;
    Advanced_Fresnel_System ].

Definition pvCells : list PVTechnology :=
  [ Silicon_Si;
    Gallium_Arsenide_GaAs;
    Triple_junction_GaAs;
    Quad_junction_IMM;
    Perovskite;
    Quantum_Dot_Cells;
    CIGS_Copper_Indium_Gallium_Selenide;
    Organic_Photovoltaics;
    Tandem_Silicon_Perovskite;
    Advanced_Multi_junction_5J;
    Concentrator_PV_CPV_Cells ].

Definition batteries : list BatteryTechnology :=
  [ Nickel_Cadmium_NiCd;
    Nickel_Hydrogen_NiH2;
    Lithium_ion_NMC;
    Lithium_ion_NCA;
    Lithium_ion_LFP;
    Lithium_Sulfur;
    Solid_State_Lithium;
    Lithium_Air;
    Sodium_ion;
    Aluminum_ion;
    Flow_Battery_Vanadium;
    Zinc_Bromine_Flow ].

Module Technologies.
Record t : Type := {
  concentrators : list ConcentratorTechnology;
  pvCells : list PVTechnology;
  batteries : list BatteryTechnology
}.
End Technologies.

Definition getTechnologies : Technologies.t :=
  {| Technologies.concentrators := concentrators;
     Technologies.pvCells := pvCells;
     Technologies.batteries := batteries |}.

Module PresetParameters.
Record t : Type := {
  concentratorArea : num;
  pvArea : num;
  batteryCapacity : num;
  baseLoad : num;
  duration : num;
  years : num
}.
End PresetParameters.

Module Preset.
Record t : Type := {
  id : string;
  name : string;
  description : string;
  concentrator : option string;
  pvCell : string;
  battery : string;
  parameters : PresetParameters.t
}.
End Preset.

Definition PresetConfig : Type := Preset.t.

Definition make_preset
    (id name description : string) (concentrator : option string)
    (pvCell battery : string)
    (concentratorArea pvArea batteryCapacity baseLoad duration years : num)
  : PresetConfig :=
  {| Preset.id := id;
     Preset.name := name;
     Preset.description := description;
     Preset.concentrator := concentrator;
     Preset.pvCell := pvCell;
     Preset.battery := battery;
     Preset.parameters :=
       {| PresetParameters.concentratorArea := concentratorArea;
          PresetParameters.pvArea := pvArea;
          PresetParameters.batteryCapacity := batteryCapacity;
          PresetParameters.baseLoad := baseLoad;
          PresetParameters.duration := duration;
          PresetParameters.years := years |} |}.

Definition presets : list PresetConfig :=
  [ make_preset "baseline" "Baseline Mission"
      "Balanced system for small spacecraft operations"
      (Some "Linear Fresnel Reflector"%string) "Triple-junction GaAs (3J)"
      "Lithium-ion (NMC)"
      (Fin 3.0) (Fin 1.0) (Fin 8000) (Fin 100) (Fin 48) (Fin 0);
    make_preset "high-power" "High-Power Science"
      "High-power system for instrument-heavy missions"
      (Some "Parabolic Dish Concentrator"%string) "Quad-junction IMM"
      "Lithium-ion (NCA)"
      (Fin 5.0) (Fin 1.5) (Fin 15000) (Fin 200) (Fin 48) (Fin 0);
    make_preset "minimal-mass" "Minimal Mass"
      "Lightweight system for mass-constrained missions"
      (Some "Inflatable Fresnel Lens"%string) "Triple-junction GaAs (3J)"
      "Lithium-Sulfur"
      (Fin 2.0) (Fin 0.5) (Fin 5000) (Fin 75) (Fin 48) (Fin 0);
    make_preset "extended-life" "Extended Life"
      "Robust system optimized for long mission duration"
      (Some "Compound Parabolic Concentrator (CPC)"%string) "Quad-junction IMM"
      "Nickel-Hydrogen (NiH2)"
      (Fin 4.0) (Fin 1.2) (Fin 12000) (Fin 120) (Fin 48) (Fin 0);
    make_preset "no-concentrator" "No Concentrator"
      "Direct PV array without concentration optics"
      None "Quad-junction IMM" "Lithium-ion (NMC)"
      (Fin 0) (Fin 8.0) (Fin 10000) (Fin 100) (Fin 48) (Fin 0) ].

(** [xs.find(x => x.name === name)]: the first entry of that name. *)
Definition find_concentrator (name : string)
  : option ConcentratorTechnology :=
  find (fun c => String.eqb (Concentrator.name c) name)
    (Technologies.concentrators getTechnologies).

Definition find_pvCell (name : string) : option PVTechnology :=
  find (fun p => String.eqb (PV.name p) name)
    (Technologies.pvCells getTechnologies).

Definition find_battery (name : string) : option BatteryTechnology :=
  find (fun b => String.eqb (Battery.name b) name)
    (Technologies.batteries getTechnologies).

(** A string is truthy when it is not empty. *)
Definition truthy (s : string) : bool :=
  match s with
  | EmptyString => false
  | _ => true
  end.

(** The object literal passed to [runSimulation]. *)
Definition make_config
    (concentrator : option ConcentratorTechnology)
    (pvCell : option PVTechnology) (battery : option BatteryTechnology)
    (concentratorArea pvArea batteryCapacity baseLoad durationHours
     yearsInOperation : num) : SimulationConfig :=
  {| concentrator := concentrator;
     pvCell := pvCell;
     battery := battery;
     concentratorArea := concentratorArea;
     pvArea := pvArea;
     batteryCapacity := batteryCapacity;
     baseLoad := baseLoad;
     durationHours := durationHours;
     yearsInOperation := yearsInOperation |}.

(** One point of the chart: [generated] and [consumed] are array reads,
    undefined ([None]) out of bounds; [soc] is an array read times 100,
    NaN out of bounds. *)
Module ChartPoint.
Record t : Type := {
  time : num;
  generated : option num;
  consumed : option num;
  soc : num
}.
End ChartPoint.

(** [xs.map((x, i) => f(x, i))] *)
Fixpoint map_indexed {A B : Type}
    (f : A -> nat -> B) (start : nat) (xs : list A) : list B :=
  match xs with
  | [] => []
  | x :: rest => f x start :: map_indexed f (S start) rest
  end.

Module Simulator.
(** The component's state variables. *)
Record State : Type := {
  selectedConcentrator : string;
  selectedPV : string;
  selectedBattery : string;
  concentratorArea : num;
  pvArea : num;
  batteryCapacity : num;
  baseLoad : num;
  durationHours : num;
  yearsOperation : num;
  isRunning : bool;
  results : option SimulationResult;
  error : option string
}.

Definition initial : State :=
  {| selectedConcentrator := "Linear Fresnel Reflector";
     selectedPV := "Triple-junction GaAs (3J)";
     selectedBattery := "Lithium-ion (NMC)";
     concentratorArea := Fin 3;
     pvArea := Fin 1;
     batteryCapacity := Fin 8000;
     baseLoad := Fin 100;
     durationHours := Fin 48;
     yearsOperation := Fin 0;
     isRunning := false;
     results := None;
     error := None |}.

Definition handlePresetSelect (preset : PresetConfig) (s : State) : State :=
  let p := Preset.parameters preset in
  {| selectedConcentrator :=
       match Preset.concentrator preset with
       | Some name => if truthy name then name else ""%string
       | None => ""%string
       end;
     selectedPV := Preset.pvCell preset;
     selectedBattery := Preset.battery preset;
     concentratorArea := PresetParameters.concentratorArea p;
     pvArea := PresetParameters.pvArea p;
     batteryCapacity := PresetParameters.batteryCapacity p;
     baseLoad := PresetParameters.baseLoad p;
     durationHours := PresetParameters.duration p;
     yearsOperation := PresetParameters.years p;
     isRunning := isRunning s;
     results := results s;
     error := error s |}.

(** The body of the [try] block: the lookups, the component's own check,
    and the call of the engine. *)
Definition attempt (s : State) : Outcome :=
  let concentrator :=
    if truthy (selectedConcentrator s)
    then find_concentrator (selectedConcentrator s)
    else None in
  let pvCell := find_pvCell (selectedPV s) in
  let battery := find_battery (selectedBattery s) in
  match pvCell, battery with
  | Some _, Some _ =>
      runSimulation
        (make_config concentrator pvCell battery
           (concentratorArea s) (pvArea s) (batteryCapacity s) (baseLoad s)
           (durationHours s) (yearsOperation s))
  | _, _ => Throws "Please select PV cell and battery"
  end.

(** The state after the handler has run: [setResults] on success,
    [setError] with the message of the caught error, [setIsRunning(false)]
    in either case.  [None] when the engine's loop is unbounded and the
    handler never finishes. *)
Definition handleRunSimulation (s : State) : option State :=
  match attempt s with
  | Returns result =>
      Some {| selectedConcentrator := selectedConcentrator s;
              selectedPV := selectedPV s;
              selectedBattery := selectedBattery s;
              concentratorArea := concentratorArea s;
              pvArea := pvArea s;
              batteryCapacity := batteryCapacity s;
              baseLoad := baseLoad s;
              durationHours := durationHours s;
              yearsOperation := yearsOperation s;
              isRunning := false;
              results := Some result;
              error := None |}
  | Throws message =>
      Some {| selectedConcentrator := selectedConcentrator s;
              selectedPV := selectedPV s;
              selectedBattery := selectedBattery s;
              concentratorArea := concentratorArea s;
              pvArea := pvArea s;
              batteryCapacity := batteryCapacity s;
              baseLoad := baseLoad s;
              durationHours := durationHours s;
              yearsOperation := yearsOperation s;
              isRunning := false;
              results := results s;
              error := Some message |}
  | Unbounded => None
  end.

Definition concentratorDetails (s : State) : option ConcentratorTechnology :=
  if truthy (selectedConcentrator s)
  then find_concentrator (selectedConcentrator s)
  else None.

Definition pvDetails (s : State) : option PVTechnology :=
  find_pvCell (selectedPV s).

Definition batteryDetails (s : State) : option BatteryTechnology :=
  find_battery (selectedBattery s).

Definition chartData (results : option SimulationResult)
  : list ChartPoint.t :=
  match results with
  | None => []
  | Some results =>
      map_indexed
        (fun t i =>
           {| ChartPoint.time := t;
              ChartPoint.generated := nth_error (power_generated results) i;
              ChartPoint.consumed := nth_error (power_consumed results) i;
              ChartPoint.soc :=
                match nth_error (battery_soc results) i with
                | Some soc => soc * Fin 100
                | None => NaN
                end |})
        0 (time results)
  end.
End Simulator.

(** *** Vocabulary for the further properties *)


(** A charge efficiency that is not negative. *)
Definition charge_efficiency_nonneg (config : SimulationConfig) : Prop :=
  match battery config with
  | Some bat => nonneg (Battery.charge_efficiency bat)
  | None => True
  end.

(** The configuration the handler passes to the engine once both lookups
    have succeeded. *)
Definition config_of_form
    (s : Simulator.State) (pv : PVTechnology) (bat : BatteryTechnology)
  : SimulationConfig :=
  make_config (Simulator.concentratorDetails s) (Some pv) (Some bat)
    (Simulator.concentratorArea s) (Simulator.pvArea s)
    (Simulator.batteryCapacity s) (Simulator.baseLoad s)
    (Simulator.durationHours s) (Simulator.yearsOperation s).

(** Numeric fields a user can sensibly enter: finite nonnegative areas and
    age, a finite base load, a finite strictly positive capacity, and a
    duration other than +Infinity. *)
Definition form_numbers_valid (s : Simulator.State) : Prop :=
  finite (Simulator.concentratorArea s)
  /\ nonneg (Simulator.concentratorArea s)
  /\ finite (Simulator.pvArea s)
  /\ nonneg (Simulator.pvArea s)
  /\ positive_finite (Simulator.batteryCapacity s)
  /\ finite (Simulator.baseLoad s)
  /\ finite (Simulator.yearsOperation s)
  /\ nonneg (Simulator.yearsOperation s)
  /\ Simulator.durationHours s <> PInf.

(** * Properties *)

(** ** Comparisons on reals *)

Lemma Rltb_true_iff (a b : R) : Rltb a b = true <-> (a < b)%R.
Proof. unfold Rltb. destruct (Rlt_dec a b); split; intros; try easy. Qed.

Lemma Rltb_false_iff (a b : R) : Rltb a b = false <-> (b <= a)%R.
Proof.
  unfold Rltb. destruct (Rlt_dec a b); split; intros; try easy; lra.
Qed.

Lemma Reqb_true_iff (a b : R) : Reqb a b = true <-> a = b.
Proof. unfold Reqb. destruct (Req_dec_T a b); split; intros; try easy. Qed.

Lemma Reqb_false_iff (a b : R) : Reqb a b = false <-> a <> b.
Proof. unfold Reqb. destruct (Req_dec_T a b); split; intros; try easy. Qed.

Lemma Rltb_lt (a b : R) : (a < b)%R -> Rltb a b = true.
Proof. apply Rltb_true_iff. Qed.

Lemma Rltb_ge (a b : R) : (b <= a)%R -> Rltb a b = false.
Proof. apply Rltb_false_iff. Qed.

Lemma Reqb_eq (a b : R) : a = b -> Reqb a b = true.
Proof. apply Reqb_true_iff. Qed.

Lemma Reqb_neq (a b : R) : a <> b -> Reqb a b = false.
Proof. apply Reqb_false_iff. Qed.

(** Case analysis on every real comparison of the goal. *)
Ltac split_R :=
  repeat match goal with
  | |- context [Rltb ?a ?b] =>
      let E := fresh "E" in
      destruct (Rltb a b) eqn:E;
      [apply Rltb_true_iff in E | apply Rltb_false_iff in E]
  | |- context [Reqb ?a ?b] =>
      let E := fresh "E" in
      destruct (Reqb a b) eqn:E;
      [apply Reqb_true_iff in E | apply Reqb_false_iff in E]
  end.

(** Evaluation of real comparisons that linear arithmetic decides. *)
Ltac eval_R :=
  repeat match goal with
  | |- context [Rltb ?a ?b] =>
      first [ rewrite (Rltb_lt a b) by lra | rewrite (Rltb_ge a b) by lra ]
  | |- context [Reqb ?a ?b] =>
      first [ rewrite (Reqb_eq a b) by lra | rewrite (Reqb_neq a b) by lra ]
  end.

(** Unfolding of the number operations down to real comparisons. *)
Ltac num_unfold :=
  cbv beta iota zeta delta
    [in_range leb ltb gtb geb Math_max Math_min add sub mul div neg
     scale_inf is_nan is_finite clamp].

Ltac num_eval :=
  num_unfold; repeat (eval_R; cbn [negb andb orb Bool.eqb]).

(** ** The clamp *)

Lemma clamp_nan_or_in_range (x : num) :
  let y := Math_max (Fin 0.15) (Math_min (Fin 0.95) x) in
  (is_nan x = true /\ y = NaN) \/ (is_nan x = false /\ in_range y = true).
Proof.
  destruct x as [| | | r]; cbv zeta.
  - left; auto.
  - right; split; [reflexivity|]. num_eval. reflexivity.
  - right; split; [reflexivity|]. num_eval. reflexivity.
  - right; split; [reflexivity|]. num_unfold.
    destruct (Rltb r 0.95) eqn:E1.
    + apply Rltb_true_iff in E1.
      destruct (Rltb 0.15 r) eqn:E2.
      * apply Rltb_true_iff in E2. num_eval. reflexivity.
      * num_eval. reflexivity.
    + num_eval. reflexivity.
Qed.

Lemma clamp_as_max_min (x : num) :
  Math_max (Fin 0.15) (Math_min (Fin 0.95) x) = clamp x (Fin 0.15) (Fin 0.95).
Proof.
  destruct x as [| | | r]; num_eval; try reflexivity.
  destruct (Rltb r 0.95) eqn:E1.
  - apply Rltb_true_iff in E1.
    destruct (Rltb 0.15 r) eqn:E2.
    + apply Rltb_true_iff in E2. num_eval. reflexivity.
    + apply Rltb_false_iff in E2.
      destruct (Rltb r 0.15) eqn:E3; [reflexivity|].
      apply Rltb_false_iff in E3. num_eval. f_equal. lra.
  - apply Rltb_false_iff in E1. num_eval.
    destruct (Rltb 0.95 r) eqn:E3; [reflexivity|].
    apply Rltb_false_iff in E3. f_equal. lra.
Qed.

Lemma updateBatterySOC_nan_or_in_range
    (soc net cap ce de ts : num) :
  is_nan (updateBatterySOC soc net cap ce de ts) = true
  \/ in_range (updateBatterySOC soc net cap ce de ts) = true.
Proof.
  unfold updateBatterySOC.
  match goal with
  | |- context [Math_min (Fin 0.95) ?x] =>
      destruct (clamp_nan_or_in_range x) as [[_ H] | [_ H]]
  end; cbv zeta in H.
  - left. rewrite H. reflexivity.
  - right. exact H.
Qed.

(** ** The loop bound *)

Lemma Rceil_bounds (r : R) : (IZR (Rceil r) - 1 < r <= IZR (Rceil r))%R.
Proof.
  unfold Rceil. rewrite opp_IZR.
  destruct (base_Int_part (- r)) as [H1 H2]. lra.
Qed.

Lemma Int_part_IZR (z : Z) : Int_part (IZR z) = z.
Proof. symmetry. apply Int_part_spec. lra. Qed.

Lemma Rceil_IZR (z : Z) : Rceil (IZR z) = z.
Proof.
  unfold Rceil. rewrite <- opp_IZR, Int_part_IZR. lia.
Qed.

(** The trip count is the number of indices at which the guard
    [step < numSteps] holds. *)
Lemma trip_count_guard (numSteps : num) (n : nat) :
  trip_count numSteps = Some n ->
  forall step : nat, (step < n)%nat <-> (of_nat step <? numSteps) = true.
Proof.
  destruct numSteps as [| | | r]; cbn; intros H step; inversion H; subst.
  - split; [lia | discriminate].
  - split; [lia | discriminate].
  - rewrite Rltb_true_iff, INR_IZR_INZ.
    pose proof (Rceil_bounds r) as [Hlo Hhi].
    split; intros Hk.
    + assert (Z.of_nat step < Rceil r)%Z as Hz by lia.
      assert (Z.of_nat step <= Rceil r - 1)%Z as Hz' by lia.
      apply IZR_le in Hz'. rewrite minus_IZR in Hz'. lra.
    + assert (IZR (Z.of_nat step) < IZR (Rceil r))%R as Hz by lra.
      apply lt_IZR in Hz. lia.
Qed.

Lemma trip_count_unbounded (numSteps : num) :
  trip_count numSteps = None ->
  forall step : nat, (of_nat step <? numSteps) = true.
Proof.
  destruct numSteps; cbn; intros H step; try discriminate. reflexivity.
Qed.

(** With enough fuel the guarded loop returns what [for_loop] returns. *)
Lemma for_loop_guarded_from {State : Type}
    (numSteps : num) (body : State -> nat -> State) (n : nat) :
  trip_count numSteps = Some n ->
  forall (m k fuel : nat) (vars : State),
    (k + m = n)%nat -> (m <= fuel)%nat ->
    for_loop_guarded fuel numSteps body k vars
    = Some (fold_left body (seq k m) vars).
Proof.
  intros Hn. induction m as [|m IH]; intros k fuel vars Hk Hfuel.
  - assert ((of_nat k <? numSteps) = false) as Hguard.
    { destruct (of_nat k <? numSteps) eqn:E; [|reflexivity].
      apply (trip_count_guard _ _ Hn) in E. lia. }
    destruct fuel; cbn [for_loop_guarded]; rewrite Hguard; reflexivity.
  - assert ((of_nat k <? numSteps) = true) as Hguard.
    { apply (trip_count_guard _ _ Hn). lia. }
    destruct fuel as [|fuel]; [lia|].
    cbn [for_loop_guarded seq fold_left]. rewrite Hguard.
    apply IH; lia.
Qed.

Lemma for_loop_guarded_enough_fuel {State : Type}
    (numSteps : num) (body : State -> nat -> State) (init : State)
    (n fuel : nat) :
  trip_count numSteps = Some n -> (n <= fuel)%nat ->
  for_loop_guarded fuel numSteps body 0 init = for_loop numSteps body init.
Proof.
  intros Hn Hfuel. unfold for_loop. rewrite Hn.
  apply (for_loop_guarded_from numSteps body n Hn); lia.
Qed.

(** When the bound is +Infinity no amount of fuel lets the loop exit. *)
Lemma for_loop_guarded_unbounded {State : Type}
    (numSteps : num) (body : State -> nat -> State) :
  trip_count numSteps = None ->
  forall (fuel step : nat) (vars : State),
    for_loop_guarded fuel numSteps body step vars = None.
Proof.
  intros Hn. induction fuel as [|fuel IH]; intros step vars;
    cbn [for_loop_guarded];
    rewrite (trip_count_unbounded _ Hn step); [reflexivity | apply IH].
Qed.

(** ** The loop, step by step *)

Section Loop.
Variable config : SimulationConfig.
Variable pv : PVTechnology.
Variable bat : BatteryTechnology.
Variables concentratorEff pvEff : num.

Let after (n : nat) : Vars.t :=
  vars_after config pv bat concentratorEff pvEff n.

Lemma vars_after_S (n : nat) :
  after (S n)
  = loop_body config pv bat concentratorEff pvEff (after n) n.
Proof.
  unfold after, vars_after. rewrite seq_S, fold_left_app. reflexivity.
Qed.

Lemma time_after (n : nat) :
  Vars.time (after n) = map time_of_step (seq 0 n).
Proof.
  induction n as [|n IH]; [reflexivity|].
  rewrite vars_after_S, seq_S, map_app. cbn. rewrite IH. reflexivity.
Qed.

Lemma temperature_after (n : nat) :
  Vars.temperature (after n) = map temperature_at (seq 0 n).
Proof.
  induction n as [|n IH]; [reflexivity|].
  rewrite vars_after_S, seq_S, map_app. cbn. rewrite IH. reflexivity.
Qed.

Lemma powerGenerated_after (n : nat) :
  Vars.powerGenerated (after n)
  = map (generated_at config pv concentratorEff pvEff) (seq 0 n).
Proof.
  induction n as [|n IH]; [reflexivity|].
  rewrite vars_after_S, seq_S, map_app. cbn. rewrite IH. reflexivity.
Qed.

Lemma powerConsumed_after (n : nat) :
  Vars.powerConsumed (after n) = map (consumed_at config) (seq 0 n).
Proof.
  induction n as [|n IH]; [reflexivity|].
  rewrite vars_after_S, seq_S, map_app. cbn. rewrite IH. reflexivity.
Qed.

Lemma batterySOC_length (n : nat) :
  List.length (Vars.batterySOC (after n)) = n.
Proof.
  induction n as [|n IH]; [reflexivity|].
  rewrite vars_after_S. cbn. rewrite length_app, IH. cbn. lia.
Qed.

(** The recorded state of charge is the clamp's output at every step. *)
Lemma batterySOC_after (n : nat) :
  Forall nan_or_in_range (Vars.batterySOC (after n)).
Proof.
  induction n as [|n IH]; [constructor|].
  rewrite vars_after_S. cbn. apply Forall_app. split; [exact IH|].
  constructor; [|constructor].
  apply updateBatterySOC_nan_or_in_range.
Qed.
End Loop.

(** What a returned result is made of. *)
Lemma runSimulation_Returns (config : SimulationConfig) (r : SimulationResult) :
  runSimulation config = Returns r ->
  exists pv bat n,
    pvCell config = Some pv /\ battery config = Some bat
    /\ trip_count (Math_floor (durationHours config / timeStep)) = Some n
    /\ r = evaluate
             (vars_after config pv bat (degraded_concentratorEff config)
                (degraded_pvEff config pv) n).
Proof.
  unfold runSimulation, for_loop.
  destruct (pvCell config) as [pv|]; [|discriminate].
  destruct (battery config) as [bat|]; [|discriminate].
  destruct (trip_count _) as [n|] eqn:E; [|discriminate].
  intros H. inversion H. exists pv, bat, n. repeat split; auto.
Qed.

(** A run with both components present and a loop bound other than
    +Infinity returns. *)
Lemma runSimulation_total (config : SimulationConfig) :
  accepted config = true ->
  Math_floor (durationHours config / timeStep) <> PInf ->
  exists r, runSimulation config = Returns r.
Proof.
  unfold accepted, runSimulation, for_loop.
  destruct (pvCell config) as [pv|]; [|discriminate].
  destruct (battery config) as [bat|]; [|discriminate].
  intros _ Hd.
  destruct (Math_floor (durationHours config / timeStep)) eqn:E; cbn;
    try (eexists; reflexivity).
  contradiction.
Qed.

Lemma preset_baseline_returns :
  exists r, runSimulation preset_baseline = Returns r.
Proof.
  apply runSimulation_total; [reflexivity|]. cbn. eval_R. cbn. discriminate.
Qed.

Lemma preset_no_concentrator_returns :
  exists r, runSimulation preset_no_concentrator = Returns r.
Proof.
  apply runSimulation_total; [reflexivity|]. cbn. eval_R. cbn. discriminate.
Qed.

(** ** Viability *)

(** C2: in every returned result, [viable] is the conjunction of the two
    strict comparisons [min_soc > 0.20] and [energy_balance > 0], where
    [min_soc] is the minimum of the recorded states of charge and
    [energy_balance] the difference of the two energy totals; an energy
    balance of exactly 0 makes the run not viable. *)
Theorem viable_is_strict_conjunction
    (config : SimulationConfig) (r : SimulationResult) :
  runSimulation config = Returns r ->
  viable (metrics r)
  = (min_soc (metrics r) >? Fin 0.20) && (energy_balance (metrics r) >? Fin 0)
  /\ min_soc (metrics r) = Math_min_all (battery_soc r)
  /\ energy_balance (metrics r)
     = total_energy (power_generated r) - total_energy (power_consumed r)
  /\ (energy_balance (metrics r) = Fin 0 -> viable (metrics r) = false).
Proof.
  intros Hrun.
  apply runSimulation_Returns in Hrun.
  destruct Hrun as (pv & bat & n & _ & _ & _ & ->).
  cbn [evaluate metrics viable min_soc energy_balance battery_soc
       power_generated power_consumed].
  repeat split.
  intros ->. num_eval. apply andb_false_r.
Qed.

Lemma viable_is_strict_conjunction_witness :
  exists r,
    runSimulation preset_no_concentrator = Returns r
    /\ viable (metrics r)
       = (min_soc (metrics r) >? Fin 0.20)
         && (energy_balance (metrics r) >? Fin 0).
Proof.
  destruct preset_no_concentrator_returns as [r Hr].
  exists r. split; [exact Hr|].
  exact (proj1 (viable_is_strict_conjunction preset_no_concentrator r Hr)).
Defined.

(** ** The battery integrator *)

Lemma neither_positive_nor_nonpositive (e : num) :
  (e >? Fin 0) = false -> (e <=? Fin 0) = false -> e = NaN.
Proof.
  destruct e as [| | | a]; num_unfold; try easy.
  split_R; cbn; try discriminate; lra.
Qed.

Lemma updateBatterySOC_eq_spec (soc net cap ce de ts : num) :
  updateBatterySOC soc net cap ce de ts
  = integrator_spec soc net cap ce de ts.
Proof.
  unfold updateBatterySOC, integrator_spec, adjusted_energy.
  rewrite clamp_as_max_min.
  destruct (net * ts >? Fin 0) eqn:E1; [reflexivity|].
  destruct (net * ts <=? Fin 0) eqn:E2; [reflexivity|].
  rewrite (neither_positive_nor_nonpositive _ E1 E2). reflexivity.
Qed.

(** C3: for a strictly positive capacity, the integrator returns the
    clamp to the band of [soc + adjusted_energy / capacity], the adjusted
    energy being [net_power * time_step * charge_efficiency] when
    [net_power * time_step > 0] and
    [(net_power * time_step) / discharge_efficiency] when it is [<= 0]. *)
Theorem updateBatterySOC_meets_spec (soc net cap ce de ts : num) :
  (Fin 0 <? cap) = true ->
  updateBatterySOC soc net cap ce de ts
  = clamp (soc + adjusted_energy net ts ce de / cap) (Fin 0.15) (Fin 0.95)
  /\ ((net * ts >? Fin 0) = true ->
      adjusted_energy net ts ce de = net * ts * ce)
  /\ ((net * ts <=? Fin 0) = true ->
      adjusted_energy net ts ce de = (net * ts) / de).
Proof.
  intros _. split; [apply updateBatterySOC_eq_spec|].
  unfold adjusted_energy. split; intros H.
  - rewrite H. reflexivity.
  - destruct (net * ts >? Fin 0) eqn:E.
    + exfalso. revert H E. destruct (net * ts) as [| | | a]; num_unfold;
        try discriminate.
      split_R; cbn; try discriminate; lra.
    + rewrite H. reflexivity.
Qed.

Lemma updateBatterySOC_meets_spec_witness :
  updateBatterySOC (Fin 0.80) (Fin 50) (Fin 8000) (Fin 0.96) (Fin 0.97)
    (Fin 0.1)
  = clamp
      (Fin 0.80
       + adjusted_energy (Fin 50) (Fin 0.1) (Fin 0.96) (Fin 0.97) / Fin 8000)
      (Fin 0.15) (Fin 0.95).
Proof.
  refine (proj1 (updateBatterySOC_meets_spec (Fin 0.80) (Fin 50) (Fin 8000)
                   (Fin 0.96) (Fin 0.97) (Fin 0.1) _)).
  num_eval. reflexivity.
Defined.

(** ** The result series *)



Lemma nth_error_map_seq {A : Type} (f : nat -> A) (n i : nat) :
  (i < n)%nat -> nth_error (map f (seq 0 n)) i = Some (f i).
Proof.
  intros Hi. apply map_nth_error. rewrite nth_error_seq.
  destruct (Nat.ltb_spec i n) as [Hlt|Hge]; [reflexivity | lia].
Qed.

Lemma nth_error_map_seq_inv {A : Type} (f : nat -> A) (n i : nat) (a : A) :
  nth_error (map f (seq 0 n)) i = Some a -> (i < n)%nat /\ a = f i.
Proof.
  rewrite nth_error_map, nth_error_seq.
  destruct (Nat.ltb_spec i n) as [Hlt|Hge]; cbn; intros Heq; inversion Heq.
  auto.
Qed.

(** The series of a returned result, in closed form. *)
Lemma series_of_result (config : SimulationConfig) (r : SimulationResult) :
  runSimulation config = Returns r ->
  exists pv bat n,
    pvCell config = Some pv /\ battery config = Some bat
    /\ trip_count (Math_floor (durationHours config / timeStep)) = Some n
    /\ time r = map time_of_step (seq 0 n)
    /\ power_generated r
       = map (generated_at config pv (degraded_concentratorEff config)
                (degraded_pvEff config pv)) (seq 0 n)
    /\ power_consumed r = map (consumed_at config) (seq 0 n)
    /\ temperature r = map temperature_at (seq 0 n)
    /\ List.length (battery_soc r) = n.
Proof.
  intros Hrun. apply runSimulation_Returns in Hrun.
  destruct Hrun as (pv & bat & n & Hpv & Hbat & Hn & ->).
  exists pv, bat, n. cbn.
  rewrite time_after, powerGenerated_after, powerConsumed_after,
    temperature_after, batterySOC_length.
  repeat split; assumption.
Qed.




(** ** Configuration errors *)

Lemma floor_of_duration_infinite (d : num) :
  Math_floor (d / timeStep) = PInf <-> d = PInf.
Proof.
  destruct d as [| | | a]; cbn; eval_R; cbn; split; intros H;
    try discriminate; reflexivity.
Qed.



(** The guard of the loop holds at every step index in that run. *)
Lemma infinite_duration_guard_always_holds (step : nat) :
  (of_nat step
   <? Math_floor (durationHours config_infinite_duration / timeStep)) = true.
Proof.
  apply trip_count_unbounded. cbn. eval_R. reflexivity.
Qed.

(** ** The photovoltaic area under a concentrator *)

Lemma step_pvPower_with_pvArea
    (config : SimulationConfig) (c : ConcentratorTechnology)
    (pv : PVTechnology) (area cEff pvEff t temp : num) :
  concentrator config = Some c ->
  step_pvPower (with_pvArea config area) pv cEff pvEff t temp
  = step_pvPower config pv cEff pvEff t temp.
Proof.
  intros Hc. unfold step_pvPower. cbn [with_pvArea concentrator].
  rewrite Hc. reflexivity.
Qed.

Lemma vars_after_with_pvArea
    (config : SimulationConfig) (c : ConcentratorTechnology)
    (pv : PVTechnology) (bat : BatteryTechnology)
    (area cEff pvEff : num) (n : nat) :
  concentrator config = Some c ->
  vars_after (with_pvArea config area) pv bat cEff pvEff n
  = vars_after config pv bat cEff pvEff n.
Proof.
  intros Hc. induction n as [|n IH]; [reflexivity|].
  rewrite !vars_after_S, IH. unfold loop_body.
  rewrite (step_pvPower_with_pvArea config c) by exact Hc.
  reflexivity.
Qed.

(** C9: when a concentrator is configured, two configurations that differ
    only in [pvArea] have the same outcome, and [calculatePVPower] does
    not depend on its concentration-ratio and PV-area arguments. *)
Theorem pvArea_ignored_under_concentrator
    (config : SimulationConfig) (c : ConcentratorTechnology) (area : num) :
  concentrator config = Some c ->
  runSimulation (with_pvArea config area) = runSimulation config
  /\ forall power ratio ratio' pvArea pvArea' pvEff tc temp : num,
       calculatePVPower power ratio pvArea pvEff tc temp
       = calculatePVPower power ratio' pvArea' pvEff tc temp.
Proof.
  intros Hc. split; [|reflexivity].
  unfold runSimulation, for_loop.
  cbn [with_pvArea pvCell battery durationHours].
  destruct (pvCell config) as [pv|]; [|reflexivity].
  destruct (battery config) as [bat|]; [|reflexivity].
  destruct (trip_count _) as [n|]; [|reflexivity].
  change (fold_left ?f (seq 0 n) initial_vars) with
    (vars_after (with_pvArea config area) pv bat
       (degraded_concentratorEff (with_pvArea config area))
       (degraded_pvEff (with_pvArea config area) pv) n) at 1.
  rewrite (vars_after_with_pvArea config c) by exact Hc.
  reflexivity.
Qed.

Lemma pvArea_ignored_under_concentrator_witness :
  runSimulation (with_pvArea preset_baseline (Fin 25))
  = runSimulation preset_baseline.
Proof.
  exact (proj1 (pvArea_ignored_under_concentrator preset_baseline
                  Linear_Fresnel_Reflector (Fin 25) eq_refl)).
Defined.

(** ** Sun angle and time at concrete and finite arguments *)

Lemma Rtrunc_0 : Rtrunc 0 = 0%Z.
Proof.
  unfold Rtrunc. destruct (Rlt_dec 0 0) as [H|_]; [lra|].
  apply (Int_part_IZR 0).
Qed.

Lemma rem_zero_dividend (b : R) : b <> 0%R -> Fin 0 mod Fin b = Fin 0.
Proof.
  intros Hb. unfold rem. rewrite (Reqb_neq b 0 Hb). f_equal.
  unfold Rdiv. rewrite Rmult_0_l, Rtrunc_0. lra.
Qed.

Lemma rem_finite (a b : R) :
  b <> 0%R -> exists c : R, Fin a mod Fin b = Fin c.
Proof.
  intros Hb. unfold rem. rewrite (Reqb_neq b 0 Hb). eexists; reflexivity.
Qed.

Lemma getSunAngle_finite (a : R) :
  exists theta : R, getSunAngle (Fin a) = Fin theta.
Proof.
  pose proof PI_RGT_0 as HPI.
  unfold getSunAngle, PSYCHE_CONSTANTS.ROTATION_PERIOD, Math_PI.
  cbv beta iota zeta delta [div mul]. eval_R.
  apply rem_finite. lra.
Qed.

Lemma getSunAngle_0 : getSunAngle (Fin 0) = Fin 0.
Proof.
  pose proof PI_RGT_0 as HPI.
  unfold getSunAngle, PSYCHE_CONSTANTS.ROTATION_PERIOD, Math_PI.
  cbv beta iota zeta delta [div mul]. eval_R.
  replace (0 * (1 / 4.2) * 2 * PI)%R with 0%R by ring.
  apply rem_zero_dividend. lra.
Qed.

Lemma time_of_step_finite (i : nat) : time_of_step i = Fin (INR i * 0.1).
Proof. reflexivity. Qed.

Lemma time_of_step_0 : time_of_step 0 = Fin 0.
Proof. rewrite time_of_step_finite. f_equal. cbn. lra. Qed.

Lemma Math_cos_0 : Math_cos (Fin 0) = Fin 1.
Proof. cbn. rewrite cos_0. reflexivity. Qed.

(** At time 0 the sun is overhead: the illumination factor is 1. *)
Lemma illumination_factor_0 : illumination_factor (Fin 0) = Fin 1.
Proof.
  unfold illumination_factor. rewrite getSunAngle_0, Math_cos_0.
  num_eval. reflexivity.
Qed.

(** ** The load model *)


(** The four sums the function can return. *)
Lemma calculatePowerConsumption_cases (t b : num) :
  calculatePowerConsumption t b
  = load_sum (Math_cos (getSunAngle t) >? Fin 0) (t mod Fin 6 <? Fin 0.5) b.
Proof.
  unfold calculatePowerConsumption, load_sum.
  destruct (Math_cos (getSunAngle t) >? Fin 0), (t mod Fin 6 <? Fin 0.5);
    reflexivity.
Qed.

Lemma nonneg_cases (b : num) :
  nonneg b -> b = PInf \/ exists r : R, b = Fin r /\ (0 <= r)%R.
Proof.
  unfold nonneg. destruct b as [| | | r]; cbn; intros H; try discriminate.
  - left; reflexivity.
  - right. exists r. split; [reflexivity|].
    destruct (Rltb r 0) eqn:E; [discriminate|].
    apply Rltb_false_iff in E. exact E.
Qed.

Lemma positive_finite_cases (b : num) :
  positive_finite b -> exists r : R, b = Fin r /\ (0 < r)%R.
Proof.
  unfold positive_finite. destruct b as [| | | r]; cbn; intros H;
    try discriminate.
  exists r. split; [reflexivity|]. apply Rltb_true_iff. exact H.
Qed.




Lemma calculatePowerConsumption_ge_twice (t b : num) :
  nonneg b -> (calculatePowerConsumption t b >=? Fin 2 * b) = true.
Proof.
  intros Hb. rewrite calculatePowerConsumption_cases.
  destruct (nonneg_cases b Hb) as [-> | (r & -> & Hr)].
  - destruct (Math_cos (getSunAngle t) >? Fin 0), (t mod Fin 6 <? Fin 0.5);
      unfold load_sum; num_eval; reflexivity.
  - destruct (Math_cos (getSunAngle t) >? Fin 0), (t mod Fin 6 <? Fin 0.5);
      unfold load_sum; num_unfold; apply negb_true_iff;
      apply Rltb_false_iff; lra.
Qed.


Lemma calculatePowerConsumption_gt_base (t b : num) :
  positive_finite b -> (b <? calculatePowerConsumption t b) = true.
Proof.
  intros Hb. rewrite calculatePowerConsumption_cases.
  destruct (positive_finite_cases b Hb) as (r & -> & Hr).
  destruct (Math_cos (getSunAngle t) >? Fin 0), (t mod Fin 6 <? Fin 0.5);
    unfold load_sum; num_unfold; apply Rltb_true_iff; lra.
Qed.




(** ** Closed forms of the environment on finite time *)

Lemma Math_max_Fin (a b : R) : Math_max (Fin a) (Fin b) = Fin (Rmax a b).
Proof.
  unfold Math_max, ltb. destruct (Rltb a b) eqn:E.
  - apply Rltb_true_iff in E. rewrite Rmax_right by lra. reflexivity.
  - apply Rltb_false_iff in E. rewrite Rmax_left by lra. reflexivity.
Qed.

Lemma Rpower_pos (x y : R) : (0 < Rpower x y)%R.
Proof. unfold Rpower. apply exp_pos. Qed.

Lemma irradiance_R_pos : (0 < irradiance_R)%R.
Proof.
  unfold irradiance_R. apply Rdiv_lt_0_compat; [lra | apply Rpower_pos].
Qed.

Lemma getSolarIrradiance_value : getSolarIrradiance = Fin irradiance_R.
Proof.
  pose proof (Rpower_pos 2.9 2) as Hp.
  unfold getSolarIrradiance, PSYCHE_CONSTANTS.SOLAR_CONSTANT_EARTH,
    PSYCHE_CONSTANTS.DISTANCE_AU, Math_pow.
  eval_R. unfold div. eval_R. reflexivity.
Qed.

Lemma getSunAngle_value (t : R) : getSunAngle (Fin t) = Fin (sun_angle_R t).
Proof.
  pose proof PI_RGT_0 as HPI.
  unfold getSunAngle, PSYCHE_CONSTANTS.ROTATION_PERIOD, Math_PI, sun_angle_R.
  cbv beta iota zeta delta [div mul rem]. eval_R. reflexivity.
Qed.

Lemma illumination_factor_value (t : R) :
  illumination_factor (Fin t) = Fin (illumination_R t).
Proof.
  unfold illumination_factor, illumination_R.
  rewrite getSunAngle_value. cbn [Math_cos]. apply Math_max_Fin.
Qed.



Lemma getSurfaceTemperature_value (t : R) :
  getSurfaceTemperature (getSunAngle (Fin t)) = Fin (surface_temperature_R t).
Proof.
  unfold getSurfaceTemperature, surface_temperature_R, illumination_R.
  rewrite getSunAngle_value. cbn [Math_cos]. rewrite Math_max_Fin.
  reflexivity.
Qed.

Lemma temperature_at_value (i : nat) :
  temperature_at i = Fin (surface_temperature_R (step_time_R i)).
Proof.
  unfold temperature_at. rewrite time_of_step_finite.
  apply getSurfaceTemperature_value.
Qed.

(** Generated power of step [i] without a concentrator. *)
Lemma generated_at_direct
    (config : SimulationConfig) (pv : PVTechnology) (cEff : num)
    (area eff coeff : R) (i : nat) :
  concentrator config = None ->
  pvArea config = Fin area ->
  PV.temp_coefficient pv = Fin coeff ->
  generated_at config pv cEff (Fin eff) i
  = Fin (irradiance_R * area * illumination_R (step_time_R i)
         * (eff * derating_R coeff (step_time_R i))).
Proof.
  intros Hc Ha Htc.
  unfold generated_at, step_pvPower.
  rewrite Hc, Ha, Htc, temperature_at_value, time_of_step_finite.
  fold (illumination_factor (Fin (INR i * 0.1))).
  rewrite illumination_factor_value, getSolarIrradiance_value.
  unfold PSYCHE_CONSTANTS.TEMP_REF. cbn [add sub mul neg].
  rewrite Math_max_Fin. reflexivity.
Qed.

(** Generated power of step [i] under a concentrator. *)
Lemma generated_at_concentrated
    (config : SimulationConfig) (c : ConcentratorTechnology)
    (pv : PVTechnology) (area cEff eff coeff : R) (i : nat) :
  concentrator config = Some c ->
  concentratorArea config = Fin area ->
  PV.temp_coefficient pv = Fin coeff ->
  generated_at config pv (Fin cEff) (Fin eff) i
  = Fin (irradiance_R * area * cEff * illumination_R (step_time_R i)
         * (eff * derating_R coeff (step_time_R i))).
Proof.
  intros Hc Ha Htc.
  unfold generated_at, step_pvPower, calculateConcentratorPower,
    calculatePVPower.
  rewrite Hc, Ha, Htc, temperature_at_value, time_of_step_finite.
  fold (illumination_factor (Fin (INR i * 0.1))).
  rewrite illumination_factor_value, getSolarIrradiance_value.
  unfold PSYCHE_CONSTANTS.TEMP_REF. cbn [add sub mul neg].
  rewrite Math_max_Fin. reflexivity.
Qed.

Lemma step_time_R_0 : step_time_R 0 = 0%R.
Proof. unfold step_time_R. cbn. lra. Qed.

Lemma illumination_R_0 : illumination_R 0 = 1%R.
Proof.
  pose proof illumination_factor_0 as H.
  rewrite illumination_factor_value in H. inversion H. reflexivity.
Qed.

(** ** Runs of the 48-hour presets *)

Lemma trip_count_48h :
  trip_count (Math_floor (Fin 48 / timeStep)) = Some 480%nat.
Proof.
  unfold timeStep, div. eval_R. cbn [Math_floor trip_count].
  replace (48 / 0.1)%R with (IZR 480) by lra.
  rewrite Int_part_IZR, Rceil_IZR. reflexivity.
Qed.

Lemma runSimulation_48h
    (config : SimulationConfig) (pv : PVTechnology) (bat : BatteryTechnology) :
  pvCell config = Some pv -> battery config = Some bat ->
  durationHours config = Fin 48 ->
  runSimulation config
  = Returns (evaluate (vars_after config pv bat
                         (degraded_concentratorEff config)
                         (degraded_pvEff config pv) 480)).
Proof.
  intros Hpv Hbat Hd. unfold runSimulation, for_loop.
  rewrite Hpv, Hbat, Hd, trip_count_48h. unfold vars_after. reflexivity.
Qed.

Section FirstStep.
Variable config : SimulationConfig.
Variable pv : PVTechnology.
Variable bat : BatteryTechnology.
Variables concentratorEff pvEff : num.


End FirstStep.


Lemma consumed_at_0 (config : SimulationConfig) (b : R) :
  baseLoad config = Fin b ->
  consumed_at config 0 = Fin (b + b * 1.5 + b * 0.8).
Proof.
  intros Hb. unfold consumed_at.
  rewrite calculatePowerConsumption_cases, Hb, time_of_step_0.
  rewrite getSunAngle_0, Math_cos_0, (rem_zero_dividend 6) by lra.
  unfold load_sum. num_eval. reflexivity.
Qed.


(** ** Consumption and the base load *)

(** C10, as amended: for every base load [b >= 0] and every time, the
    consumption is one of the four sums of [load_sum] (exactly one of the
    instrument load 1.5 b and the heater load 1.0 b is added) and is at
    least [2 b]; hence every recorded [power_consumed] value is at least
    twice the base load, and strictly above the base load when that is
    finite and strictly positive. *)
Theorem consumption_at_least_twice_base_load (b : num) :
  nonneg b ->
  (forall t : num,
      (calculatePowerConsumption t b >=? Fin 2 * b) = true
      /\ exists day comm : bool,
           calculatePowerConsumption t b = load_sum day comm b)
  /\ (forall (config : SimulationConfig) (r : SimulationResult)
             (i : nat) (p : num),
         baseLoad config = b ->
         runSimulation config = Returns r ->
         nth_error (power_consumed r) i = Some p ->
         (p >=? Fin 2 * b) = true
         /\ (positive_finite b -> (b <? p) = true)).
Proof.
  intros Hb. split.
  - intros t. split.
    + apply calculatePowerConsumption_ge_twice. exact Hb.
    + rewrite calculatePowerConsumption_cases. eauto.
  - intros config r i p Hload Hrun Hp.
    destruct (series_of_result _ _ Hrun)
      as (pv & bat & n & _ & _ & _ & _ & _ & Hc & _ & _).
    rewrite Hc in Hp. apply nth_error_map_seq_inv in Hp.
    destruct Hp as [_ ->]. unfold consumed_at. rewrite Hload. split.
    + apply calculatePowerConsumption_ge_twice. exact Hb.
    + apply calculatePowerConsumption_gt_base.
Qed.

Lemma consumption_at_least_twice_base_load_witness :
  (calculatePowerConsumption (Fin 0) (Fin 100) >=? Fin 2 * Fin 100) = true
  /\ exists day comm : bool,
       calculatePowerConsumption (Fin 0) (Fin 100)
       = load_sum day comm (Fin 100).
Proof.
  refine (proj1 (consumption_at_least_twice_base_load (Fin 100) _) (Fin 0)).
  unfold nonneg. num_eval. reflexivity.
Defined.

(** C10 as stated fails on a zero base load: the consumption recorded at
    step 0 is 0, the bare base load. *)
Lemma zero_base_load_consumption_equals_base :
  exists r,
    runSimulation config_all_zero = Returns r
    /\ baseLoad config_all_zero = Fin 0
    /\ nth_error (power_consumed r) 0 = Some (Fin 0).
Proof.
  eexists. split; [|split].
  - apply (runSimulation_48h config_all_zero Quad_junction_IMM
             Lithium_ion_NMC); reflexivity.
  - reflexivity.
  - cbn [evaluate power_consumed].
    rewrite powerConsumed_after.
    rewrite (nth_error_map_seq (consumed_at config_all_zero)) by lia.
    rewrite (consumed_at_0 config_all_zero 0) by reflexivity.
    do 2 f_equal. lra.
Qed.

(** ** Sign of the generated power *)

Lemma not_negative_cases (x : num) :
  not_negative x ->
  x = NaN \/ x = PInf \/ exists r : R, x = Fin r /\ (0 <= r)%R.
Proof.
  unfold not_negative. destruct x as [| | | r]; cbn; intros H; auto.
  - discriminate.
  - right; right. exists r. split; [reflexivity|].
    apply Rltb_false_iff. exact H.
Qed.

Lemma not_negative_Fin (r : R) : (0 <= r)%R -> not_negative (Fin r).
Proof. intros Hr. unfold not_negative. cbn. apply Rltb_false_iff. exact Hr. Qed.

Lemma not_negative_mul (x y : num) :
  not_negative x -> not_negative y -> not_negative (x * y).
Proof.
  intros Hx Hy.
  destruct (not_negative_cases x Hx) as [-> | [-> | (a & -> & Ha)]];
    destruct (not_negative_cases y Hy) as [-> | [-> | (b & -> & Hb)]];
    try reflexivity.
  - unfold mul, scale_inf. destruct (Reqb b 0) eqn:E; [reflexivity|].
    apply Reqb_false_iff in E. rewrite Rltb_lt by lra. reflexivity.
  - unfold mul, scale_inf. destruct (Reqb a 0) eqn:E; [reflexivity|].
    apply Reqb_false_iff in E. rewrite Rltb_lt by lra. reflexivity.
  - apply not_negative_Fin. apply Rmult_le_pos; assumption.
Qed.

Lemma not_negative_Math_max (c : R) (y : num) :
  (0 <= c)%R -> not_negative (Math_max (Fin c) y).
Proof.
  intros Hc. destruct y as [| | | b]; try reflexivity.
  - apply not_negative_Fin. exact Hc.
  - rewrite Math_max_Fin. apply not_negative_Fin.
    apply Rle_trans with c; [exact Hc | apply Rmax_l].
Qed.

Lemma not_negative_Math_pow (b : R) (y : num) :
  (0 <= b)%R -> not_negative (Math_pow (Fin b) y).
Proof.
  intros Hb. pose proof (Rpower_pos b) as Hp.
  unfold Math_pow. destruct y as [| | | e]; try reflexivity.
  - destruct (Rltb 1 (Rabs b)); [reflexivity|].
    destruct (Reqb (Rabs b) 1); [reflexivity|].
    apply not_negative_Fin. lra.
  - destruct (Rltb 1 (Rabs b)); [apply not_negative_Fin; lra|].
    destruct (Reqb (Rabs b) 1); reflexivity.
  - destruct (Reqb e 0); [apply not_negative_Fin; lra|].
    destruct (Reqb b 0) eqn:E0.
    + destruct (Rltb 0 e); [apply not_negative_Fin; lra | reflexivity].
    + apply Reqb_false_iff in E0. rewrite Rltb_lt by lra.
      apply not_negative_Fin. specialize (Hp e). lra.
Qed.

Lemma nonneg_not_negative (x : num) : nonneg x -> not_negative x.
Proof.
  intros H. destruct (nonneg_cases x H) as [-> | (r & -> & Hr)];
    [reflexivity | apply not_negative_Fin; exact Hr].
Qed.

Lemma unit_interval_cases (x : num) :
  unit_interval x -> exists r : R, x = Fin r /\ (0 <= r <= 1)%R.
Proof.
  unfold unit_interval. destruct x as [| | | r]; cbn; intros H;
    try discriminate.
  apply andb_true_iff in H. destruct H as [H1 H2].
  apply negb_true_iff, Rltb_false_iff in H1.
  apply negb_true_iff, Rltb_false_iff in H2.
  exists r. split; [reflexivity | lra].
Qed.

Lemma finite_cases (x : num) : finite x -> exists r : R, x = Fin r.
Proof.
  unfold finite. destruct x as [| | | r]; cbn; intros H; try discriminate.
  exists r. reflexivity.
Qed.

Lemma getSolarIrradiance_not_negative : not_negative getSolarIrradiance.
Proof.
  rewrite getSolarIrradiance_value. apply not_negative_Fin.
  pose proof irradiance_R_pos. lra.
Qed.

Lemma degraded_pvEff_not_negative
    (config : SimulationConfig) (pv : PVTechnology) :
  unit_interval (PV.efficiency pv) ->
  unit_interval (PV.degradation_rate pv) ->
  not_negative (degraded_pvEff config pv).
Proof.
  intros He Hr. unfold degraded_pvEff.
  destruct (unit_interval_cases _ He) as (e & -> & Hebound).
  destruct (unit_interval_cases _ Hr) as (d & -> & Hdbound).
  apply not_negative_mul; [apply not_negative_Fin; lra|].
  cbn [sub add neg]. apply not_negative_Math_pow. lra.
Qed.

Lemma degraded_concentratorEff_not_negative (config : SimulationConfig) :
  concentrator_efficiency_is unit_interval config ->
  not_negative (degraded_concentratorEff config).
Proof.
  unfold concentrator_efficiency_is, degraded_concentratorEff.
  destruct (concentrator config) as [c|]; intros H.
  - destruct (unit_interval_cases _ H) as (e & -> & Hebound).
    apply not_negative_mul; [apply not_negative_Fin; lra|].
    cbn [sub add neg]. apply not_negative_Math_pow. lra.
  - apply not_negative_Fin. lra.
Qed.

Lemma step_pvPower_not_negative
    (config : SimulationConfig) (pv : PVTechnology)
    (cEff pvEff t temp : num) :
  nonneg (concentratorArea config) -> nonneg (pvArea config) ->
  not_negative cEff -> not_negative pvEff ->
  not_negative (step_pvPower config pv cEff pvEff t temp).
Proof.
  intros Hca Hpa Hc Hp.
  unfold step_pvPower, calculatePVPower, calculateConcentratorPower.
  destruct (concentrator config) as [c|];
    repeat apply not_negative_mul;
    auto using getSolarIrradiance_not_negative, nonneg_not_negative;
    apply not_negative_Math_max; lra.
Qed.

Lemma Math_pow_finite (b y : R) :
  (0 <= b)%R -> (0 <= y)%R -> exists p : R, Math_pow (Fin b) (Fin y) = Fin p.
Proof.
  intros Hb Hy. unfold Math_pow.
  destruct (Reqb y 0) eqn:Ey; [eexists; reflexivity|].
  apply Reqb_false_iff in Ey.
  destruct (Reqb b 0) eqn:Eb.
  - rewrite Rltb_lt by lra. eexists; reflexivity.
  - apply Reqb_false_iff in Eb. rewrite Rltb_lt by lra.
    eexists; reflexivity.
Qed.

Lemma finite_nonneg_cases (x : num) :
  finite x -> nonneg x -> exists r : R, x = Fin r /\ (0 <= r)%R.
Proof.
  intros Hf Hn. destruct (nonneg_cases x Hn) as [-> | H];
    [discriminate Hf | exact H].
Qed.

Lemma degraded_pvEff_finite
    (config : SimulationConfig) (pv : PVTechnology) :
  unit_interval (PV.efficiency pv) ->
  unit_interval (PV.degradation_rate pv) ->
  finite (yearsInOperation config) -> nonneg (yearsInOperation config) ->
  exists e : R, degraded_pvEff config pv = Fin e.
Proof.
  intros He Hr Hyf Hyn. unfold degraded_pvEff.
  destruct (unit_interval_cases _ He) as (e & -> & Hebound).
  destruct (unit_interval_cases _ Hr) as (d & -> & Hdbound).
  destruct (finite_nonneg_cases _ Hyf Hyn) as (y & -> & Hy).
  cbn [sub add neg].
  destruct (Math_pow_finite (1 + - d) y) as [p ->]; [lra | exact Hy |].
  eexists; reflexivity.
Qed.

Lemma degraded_concentratorEff_finite (config : SimulationConfig) :
  concentrator_efficiency_is unit_interval config ->
  finite (yearsInOperation config) -> nonneg (yearsInOperation config) ->
  exists e : R, degraded_concentratorEff config = Fin e.
Proof.
  unfold concentrator_efficiency_is, degraded_concentratorEff.
  intros He Hyf Hyn.
  destruct (concentrator config) as [c|]; [|eexists; reflexivity].
  destruct (unit_interval_cases _ He) as (e & -> & Hebound).
  destruct (finite_nonneg_cases _ Hyf Hyn) as (y & -> & Hy).
  cbn [sub add neg].
  match goal with
  | |- context [Math_pow (Fin ?b) (Fin y)] =>
      destruct (Math_pow_finite b y) as [p ->]; [lra | exact Hy |]
  end.
  eexists; reflexivity.
Qed.

Lemma generated_at_finite
    (config : SimulationConfig) (pv : PVTechnology) (cEff eff : R) (i : nat) :
  finite (concentratorArea config) -> finite (pvArea config) ->
  finite (PV.temp_coefficient pv) ->
  exists g : R, generated_at config pv (Fin cEff) (Fin eff) i = Fin g.
Proof.
  intros Hca Hpa Htc.
  destruct (finite_cases _ Hca) as [ca Eca].
  destruct (finite_cases _ Hpa) as [pa Epa].
  destruct (finite_cases _ Htc) as [tc Etc].
  destruct (concentrator config) as [c|] eqn:Ec.
  - rewrite (generated_at_concentrated config c pv ca cEff eff tc i Ec Eca Etc).
    eexists; reflexivity.
  - rewrite (generated_at_direct config pv (Fin cEff) pa eff tc i Ec Epa Etc).
    eexists; reflexivity.
Qed.







(** ** Degradation with age *)














(** ** State of charge *)

Lemma Math_min_Fin (a b : R) : Math_min (Fin a) (Fin b) = Fin (Rmin a b).
Proof.
  unfold Math_min, ltb. destruct (Rltb b a) eqn:E.
  - apply Rltb_true_iff in E. rewrite Rmin_right by lra. reflexivity.
  - apply Rltb_false_iff in E. rewrite Rmin_left by lra. reflexivity.
Qed.

(** On finite arguments with a nonzero capacity and discharge efficiency
    the integrator returns a number inside the band. *)
Lemma updateBatterySOC_finite (soc net cap ce de : R) :
  cap <> 0%R -> de <> 0%R ->
  exists s : R,
    updateBatterySOC (Fin soc) (Fin net) (Fin cap) (Fin ce) (Fin de) timeStep
    = Fin s
    /\ in_range (Fin s) = true.
Proof.
  intros Hcap Hde.
  assert (forall e : R,
             exists s : R,
               Math_max (Fin 0.15)
                 (Math_min (Fin 0.95) (Fin soc + Fin e / Fin cap))
               = Fin s /\ in_range (Fin s) = true) as Hclamp.
  { intros e. unfold div. rewrite (Reqb_neq cap 0 Hcap). cbn [add].
    destruct (clamp_nan_or_in_range (Fin (soc + e / cap)))
      as [[Hnan _] | [_ Hin]]; [discriminate Hnan|].
    cbv zeta in Hin. revert Hin.
    rewrite Math_min_Fin, Math_max_Fin. eauto. }
  unfold updateBatterySOC, timeStep. cbn [mul].
  destruct (Fin (net * 0.1) >? Fin 0).
  - cbn [mul]. apply Hclamp.
  - unfold div at 2. rewrite (Reqb_neq de 0 Hde). apply Hclamp.
Qed.

Lemma consumed_at_finite (config : SimulationConfig) (i : nat) :
  finite (baseLoad config) -> exists l : R, consumed_at config i = Fin l.
Proof.
  intros Hb. destruct (finite_cases _ Hb) as [b Eb].
  unfold consumed_at. rewrite calculatePowerConsumption_cases, Eb.
  unfold load_sum.
  destruct (_ >? _), (_ <? _); cbn [add mul]; eexists; reflexivity.
Qed.

Lemma currentSOC_after_S
    (config : SimulationConfig) (pv : PVTechnology) (bat : BatteryTechnology)
    (cEff pvEff : num) (n : nat) :
  Vars.currentSOC (vars_after config pv bat cEff pvEff (S n))
  = updateBatterySOC
      (Vars.currentSOC (vars_after config pv bat cEff pvEff n))
      (generated_at config pv cEff pvEff n - consumed_at config n)
      (batteryCapacity config) (Battery.charge_efficiency bat)
      (Battery.discharge_efficiency bat) timeStep.
Proof. rewrite vars_after_S. reflexivity. Qed.

Lemma batterySOC_after_S
    (config : SimulationConfig) (pv : PVTechnology) (bat : BatteryTechnology)
    (cEff pvEff : num) (n : nat) :
  Vars.batterySOC (vars_after config pv bat cEff pvEff (S n))
  = Vars.batterySOC (vars_after config pv bat cEff pvEff n)
    ++ [Vars.currentSOC (vars_after config pv bat cEff pvEff (S n))].
Proof. rewrite !vars_after_S. reflexivity. Qed.

Section FiniteRun.
Variable config : SimulationConfig.
Variable pv : PVTechnology.
Variable bat : BatteryTechnology.
Variables cEff eff cap ce de : R.
Hypothesis finite_concentratorArea : finite (concentratorArea config).
Hypothesis finite_pvArea : finite (pvArea config).
Hypothesis finite_temp_coefficient : finite (PV.temp_coefficient pv).
Hypothesis finite_baseLoad : finite (baseLoad config).
Hypothesis capacity_value : batteryCapacity config = Fin cap.
Hypothesis capacity_nonzero : cap <> 0%R.
Hypothesis charge_value : Battery.charge_efficiency bat = Fin ce.
Hypothesis discharge_value : Battery.discharge_efficiency bat = Fin de.
Hypothesis discharge_nonzero : de <> 0%R.

(** Invariant of the loop on finite inputs: the running state of charge is
    a number, and every recorded value is inside the band. *)
Lemma finite_run_invariant (n : nat) :
  (exists s : R,
      Vars.currentSOC (vars_after config pv bat (Fin cEff) (Fin eff) n)
      = Fin s)
  /\ Forall (fun soc => in_range soc = true)
       (Vars.batterySOC (vars_after config pv bat (Fin cEff) (Fin eff) n)).
Proof.
  induction n as [|n [[s Hs] IH]].
  - split; [exists 0.80%R; reflexivity | constructor].
  - rewrite batterySOC_after_S, currentSOC_after_S.
    destruct (generated_at_finite config pv cEff eff n
                finite_concentratorArea finite_pvArea
                finite_temp_coefficient) as [g ->].
    destruct (consumed_at_finite config n finite_baseLoad) as [l ->].
    rewrite Hs, capacity_value, charge_value, discharge_value.
    cbn [sub add neg].
    destruct (updateBatterySOC_finite s (g + - l) cap ce de
                capacity_nonzero discharge_nonzero) as (s' & -> & Hin).
    split; [exists s'; reflexivity|].
    apply Forall_app. split; [exact IH|].
    constructor; [exact Hin | constructor].
Qed.
End FiniteRun.






(** ** Further concrete runs of the two models *)

(** A second way in which the load model leaves the wording of the
    specification: at a time that is NaN the engine adds the heater load
    (its test is "not day"), while the illumination factor is NaN and so
    not [<= 0]. *)
Lemma nan_time_adds_heater_load :
  calculatePowerConsumption NaN (Fin 100) = Fin (100 + 100 * 1.0)
  /\ load_model_spec NaN (Fin 100) = Fin 100.
Proof.
  split; reflexivity.
Qed.


(** ** Values of the model on small inputs *)

Example division_by_zero :
  Fin 0 / Fin 0 = NaN /\ Fin 1 / Fin 0 = PInf /\ Fin (-1) / Fin 0 = NInf.
Proof. repeat split; num_eval; reflexivity. Qed.

Example floor_of_480_steps : Math_floor (Fin 48 / timeStep) = Fin 480.
Proof.
  unfold timeStep, div. eval_R. cbn [Math_floor].
  replace (48 / 0.1)%R with (IZR 480) by lra.
  rewrite Int_part_IZR. reflexivity.
Qed.

Example charging_step :
  updateBatterySOC (Fin 0.80) (Fin 50) (Fin 8000) (Fin 0.96) (Fin 0.97)
    (Fin 0.1)
  = Fin 0.8006.
Proof.
  unfold updateBatterySOC. num_eval. f_equal. lra.
Qed.

Example discharging_at_the_floor :
  updateBatterySOC (Fin 0.15) (Fin (-200)) (Fin 8000) (Fin 0.96) (Fin 0.97)
    (Fin 0.1)
  = Fin 0.15.
Proof.
  unfold updateBatterySOC. num_eval. reflexivity.
Qed.

Example zero_energy_over_zero_capacity :
  updateBatterySOC (Fin 0.80) (Fin 0) (Fin 0) (Fin 0.96) (Fin 0.97) (Fin 0.1)
  = NaN.
Proof.
  unfold updateBatterySOC. num_eval. reflexivity.
Qed.

Example consumption_at_time_0 :
  calculatePowerConsumption (Fin 0) (Fin 100) = Fin 330.
Proof.
  rewrite calculatePowerConsumption_cases.
  rewrite getSunAngle_0, Math_cos_0, (rem_zero_dividend 6) by lra.
  unfold load_sum. num_eval. f_equal. lra.
Qed.

Example temperature_at_time_0 : temperature_at 0 = Fin 270.
Proof.
  rewrite temperature_at_value, step_time_R_0.
  unfold surface_temperature_R. rewrite illumination_R_0. f_equal. lra.
Qed.

(** A run with no step has a minimum state of charge of +Infinity and an
    energy balance of exactly 0: it is not viable. *)
Example empty_run_is_not_viable :
  min_soc (metrics (evaluate initial_vars)) = PInf
  /\ (min_soc (metrics (evaluate initial_vars)) >? Fin 0.20) = true
  /\ energy_balance (metrics (evaluate initial_vars)) = Fin 0
  /\ viable (metrics (evaluate initial_vars)) = false.
Proof.
  assert (energy_balance (metrics (evaluate initial_vars)) = Fin 0) as Hb.
  { cbn. f_equal. lra. }
  repeat split; try reflexivity; try exact Hb.
  cbn [evaluate metrics viable initial_vars Vars.powerGenerated
       Vars.powerConsumed Vars.batterySOC].
  cbn [evaluate metrics energy_balance initial_vars Vars.powerGenerated
       Vars.powerConsumed] in Hb.
  rewrite Hb. num_eval. reflexivity.
Qed.

(** * Further properties of the engine *)

(** ** The sun angle *)

Lemma Rtrunc_nonneg (y : R) : (0 <= y)%R -> Rtrunc y = Int_part y.
Proof.
  intros Hy. unfold Rtrunc. destruct (Rlt_dec y 0) as [H|_]; [lra|reflexivity].
Qed.

Lemma Rtrunc_neg (y : R) : (y <= 0)%R -> Rtrunc y = (- Int_part (- y))%Z.
Proof.
  intros Hy. unfold Rtrunc. destruct (Rlt_dec y 0) as [_|H]; [reflexivity|].
  assert (y = 0)%R as -> by lra.
  rewrite Ropp_0. rewrite (Int_part_IZR 0). reflexivity.
Qed.

Lemma turns_of_sun_angle (t : R) :
  (t * (1 / 4.2) * 2 * PI / (2 * PI) = t / 4.2)%R.
Proof. pose proof PI_RGT_0. field. lra. Qed.

Lemma sun_angle_R_turns (t : R) :
  sun_angle_R t = (2 * PI * (t / 4.2 - IZR (Rtrunc (t / 4.2))))%R.
Proof.
  unfold sun_angle_R. cbv zeta. rewrite turns_of_sun_angle. field; lra.
Qed.












Lemma Int_part_half : Int_part 0.5 = 0%Z.
Proof. symmetry. apply Int_part_spec. lra. Qed.

(** On negative times the sun angle itself is not periodic: half a
    rotation before time 0 the angle is - pi, half a rotation after it is
    pi. *)
Lemma sun_angle_across_time_zero :
  getSunAngle (Fin (-2.1)) = Fin (- PI)
  /\ getSunAngle (Fin (-2.1) + Fin 4.2) = Fin PI.
Proof.
  cbn [add]. rewrite !getSunAngle_value, !sun_angle_R_turns. split; f_equal.
  - replace (-2.1 / 4.2)%R with (- (0.5))%R by lra.
    rewrite Rtrunc_neg by lra. rewrite Ropp_involutive, Int_part_half.
    cbn. lra.
  - replace ((-2.1 + 4.2) / 4.2)%R with 0.5%R by lra.
    rewrite Rtrunc_nonneg by lra. rewrite Int_part_half. lra.
Qed.

(** ** The surface temperature *)

Lemma getSurfaceTemperature_finite (a : R) :
  getSurfaceTemperature (Fin a)
  = Fin (100 + (270 + - (100)) * Rmax 0 (cos a)).
Proof.
  unfold getSurfaceTemperature. cbn [Math_cos]. rewrite Math_max_Fin.
  reflexivity.
Qed.

Lemma illumination_bounds (c : R) :
  (-1 <= c <= 1)%R -> (0 <= Rmax 0 c <= 1)%R.
Proof.
  intros Hc. split; [apply Rmax_l|]. apply Rmax_lub; lra.
Qed.

Lemma within_temperature_bounds (x : R) :
  (100 <= x <= 270)%R -> (Fin 100 <=? Fin x) && (Fin x <=? Fin 270) = true.
Proof.
  intros Hx. num_unfold. rewrite !Rltb_ge by lra. reflexivity.
Qed.

(** X3: the surface temperature of a finite sun angle lies between 100 K
    and 270 K, that of NaN or of an infinite angle is NaN, and every value
    of the temperature series of a returned result lies between 100 K and
    270 K, whatever the configuration. *)
Theorem temperature_within_bounds :
  (forall a : R,
      (Fin 100 <=? getSurfaceTemperature (Fin a))
      && (getSurfaceTemperature (Fin a) <=? Fin 270) = true)
  /\ (forall angle : num,
         is_finite angle = false -> getSurfaceTemperature angle = NaN)
  /\ (forall (config : SimulationConfig) (r : SimulationResult)
             (i : nat) (T : num),
         runSimulation config = Returns r ->
         nth_error (temperature r) i = Some T ->
         (Fin 100 <=? T) && (T <=? Fin 270) = true).
Proof.
  assert (forall a : R,
             (Fin 100 <=? getSurfaceTemperature (Fin a))
             && (getSurfaceTemperature (Fin a) <=? Fin 270) = true) as Hfin.
  { intros a. rewrite getSurfaceTemperature_finite.
    apply within_temperature_bounds.
    pose proof (illumination_bounds (cos a) (COS_bound a)). lra. }
  split; [exact Hfin|]. split.
  - intros angle H. destruct angle; try discriminate; reflexivity.
  - intros config r i T Hrun HT.
    destruct (series_of_result _ _ Hrun)
      as (pv & bat & n & _ & _ & _ & _ & _ & _ & Htemp & _).
    rewrite Htemp in HT. apply nth_error_map_seq_inv in HT.
    destruct HT as [_ ->]. unfold temperature_at.
    rewrite time_of_step_finite.
    destruct (getSunAngle_finite (INR i * 0.1)) as [theta ->].
    apply Hfin.
Qed.

(** ** The derating of the cell *)



(** ** Direction of the state of charge *)




Lemma leb_Fin_iff (a b : R) : (Fin a <=? Fin b) = true <-> (a <= b)%R.
Proof.
  cbn. rewrite negb_true_iff. apply Rltb_false_iff.
Qed.

Lemma in_range_Fin_iff (s : R) :
  in_range (Fin s) = true <-> (0.15 <= s <= 0.95)%R.
Proof.
  unfold in_range. rewrite andb_true_iff, !leb_Fin_iff. reflexivity.
Qed.

Section FiniteRunDirection.
Variable config : SimulationConfig.
Variable pv : PVTechnology.
Variable bat : BatteryTechnology.
Variables cEff eff cap ce de : R.
Hypothesis finite_concentratorArea : finite (concentratorArea config).
Hypothesis finite_pvArea : finite (pvArea config).
Hypothesis finite_temp_coefficient : finite (PV.temp_coefficient pv).
Hypothesis finite_baseLoad : finite (baseLoad config).
Hypothesis capacity_value : batteryCapacity config = Fin cap.
Hypothesis capacity_positive : (0 < cap)%R.
Hypothesis charge_value : Battery.charge_efficiency bat = Fin ce.
Hypothesis charge_nonneg : (0 <= ce)%R.
Hypothesis discharge_value : Battery.discharge_efficiency bat = Fin de.
Hypothesis discharge_positive : (0 < de)%R.

End FiniteRunDirection.



(** ** Generation by day and by night *)





(** ** The health score *)

Lemma above_040_is_above_020 (m : num) :
  (m >? Fin 0.40) = true -> (m >? Fin 0.20) = true.
Proof.
  destruct m as [| | | a]; num_unfold; try easy.
  intros H. apply Rltb_true_iff in H. apply Rltb_lt. lra.
Qed.

Lemma health_of_criteria (c1 c2 c3 c4 c5 : bool) :
  (c2 = true -> c1 = true) ->
  let score := bump c5 (bump c4 (bump c3 (bump c2 (bump c1 0%nat)))) in
  (score <= 5)%nat
  /\ (c1 && c3 = true -> (2 <= score)%nat)
  /\ (score = 5%nat -> c1 && c3 = true)
  /\ ((4 <= score)%nat -> c1 = true)
  /\ (c2 = true -> (2 <= score)%nat).
Proof.
  intros H. destruct c2.
  - rewrite (H eq_refl). destruct c3, c4, c5; cbn; repeat split;
      intros; try reflexivity; try lia; try discriminate.
  - clear H. destruct c1, c3, c4, c5; cbn; repeat split;
      intros; try reflexivity; try lia; try discriminate.
Qed.

(** X8: in every returned result the health score is at most 5; a viable
    run scores at least 2; a score of 5 means the run is viable; a score
    of at least 4 means the minimum state of charge is above 0.20; and a
    minimum state of charge above 0.40 gives a score of at least 2 (the
    0.40 criterion implies the 0.20 one). *)
Theorem health_score_and_viability
    (config : SimulationConfig) (r : SimulationResult) :
  runSimulation config = Returns r ->
  (system_health (metrics r) <= 5)%nat
  /\ (viable (metrics r) = true -> (2 <= system_health (metrics r))%nat)
  /\ (system_health (metrics r) = 5%nat -> viable (metrics r) = true)
  /\ ((4 <= system_health (metrics r))%nat ->
      (min_soc (metrics r) >? Fin 0.20) = true)
  /\ ((min_soc (metrics r) >? Fin 0.40) = true ->
      (2 <= system_health (metrics r))%nat).
Proof.
  intros Hrun. apply runSimulation_Returns in Hrun.
  destruct Hrun as (pv & bat & n & _ & _ & _ & ->).
  cbn [evaluate metrics system_health viable min_soc].
  apply health_of_criteria. apply above_040_is_above_020.
Qed.

(** ** Minimum and maximum of a series *)

Lemma leb_trans (x y z : num) :
  (x <=? y) = true -> (y <=? z) = true -> (x <=? z) = true.
Proof.
  destruct x as [| | | a], y as [| | | b], z as [| | | c]; cbn;
    try easy.
  rewrite !negb_true_iff, !Rltb_false_iff. lra.
Qed.

Lemma Math_min_spec (a x : num) :
  is_nan a = false -> is_nan x = false ->
  is_nan (Math_min a x) = false
  /\ (Math_min a x <=? a) = true /\ (Math_min a x <=? x) = true
  /\ (Math_min a x = a \/ Math_min a x = x).
Proof.
  destruct a as [| | | a], x as [| | | x]; cbn; intros Ha Hx;
    try discriminate; auto.
  - rewrite Rltb_ge by lra. cbn. auto.
  - rewrite Rltb_ge by lra. cbn. auto.
  - destruct (Rltb x a) eqn:E; cbn.
    + apply Rltb_true_iff in E. rewrite !Rltb_ge by lra. cbn. auto.
    + apply Rltb_false_iff in E. rewrite !Rltb_ge by lra. cbn. auto.
Qed.

Lemma Math_max_spec (a x : num) :
  is_nan a = false -> is_nan x = false ->
  is_nan (Math_max a x) = false
  /\ (a <=? Math_max a x) = true /\ (x <=? Math_max a x) = true
  /\ (Math_max a x = a \/ Math_max a x = x).
Proof.
  destruct a as [| | | a], x as [| | | x]; cbn; intros Ha Hx;
    try discriminate; auto.
  - rewrite Rltb_ge by lra. cbn. auto.
  - rewrite Rltb_ge by lra. cbn. auto.
  - destruct (Rltb a x) eqn:E; cbn.
    + apply Rltb_true_iff in E. rewrite !Rltb_ge by lra. cbn. auto.
    + apply Rltb_false_iff in E. rewrite !Rltb_ge by lra. cbn. auto.
Qed.

Lemma fold_Math_min_nan_acc (xs : list num) :
  fold_left Math_min xs NaN = NaN.
Proof. induction xs as [|x xs IH]; [reflexivity | exact IH]. Qed.

Lemma fold_Math_max_nan_acc (xs : list num) :
  fold_left Math_max xs NaN = NaN.
Proof. induction xs as [|x xs IH]; [reflexivity | exact IH]. Qed.

Lemma Math_min_nan_r (a : num) : Math_min a NaN = NaN.
Proof. destruct a; reflexivity. Qed.

Lemma Math_max_nan_r (a : num) : Math_max a NaN = NaN.
Proof. destruct a; reflexivity. Qed.

Lemma fold_Math_min_spec (xs : list num) :
  forall a : num,
    is_nan a = false ->
    (Exists (fun x => is_nan x = true) xs ->
     fold_left Math_min xs a = NaN)
    /\ (Forall (fun x => is_nan x = false) xs ->
        is_nan (fold_left Math_min xs a) = false
        /\ (fold_left Math_min xs a <=? a) = true
        /\ (forall x, In x xs -> (fold_left Math_min xs a <=? x) = true)
        /\ (fold_left Math_min xs a = a \/ In (fold_left Math_min xs a) xs)).
Proof.
  induction xs as [|x xs IH]; intros a Ha.
  - split; [intros H; inversion H|]. intros _. cbn.
    repeat split; auto. destruct a; try discriminate; cbn; auto.
    rewrite Rltb_ge by lra. reflexivity.
  - cbn [fold_left]. split.
    + intros H. inversion H as [? ? Hx | ? ? Hrest]; subst.
      * destruct x; try discriminate. rewrite Math_min_nan_r.
        apply fold_Math_min_nan_acc.
      * destruct (is_nan x) eqn:Ex.
        { destruct x; try discriminate. rewrite Math_min_nan_r.
          apply fold_Math_min_nan_acc. }
        destruct (Math_min_spec a x Ha Ex) as (Hm & _).
        apply (IH _ Hm). exact Hrest.
    + intros H. inversion H as [|? ? Hx Hrest]; subst.
      destruct (Math_min_spec a x Ha Hx) as (Hm & Hma & Hmx & Hor).
      destruct (IH _ Hm) as [_ IH'].
      destruct (IH' Hrest) as (Hn & Hle & Hall & Hin).
      split; [exact Hn|]. split; [eapply leb_trans; eassumption|].
      split.
      * intros y [-> | Hy]; [eapply leb_trans; eassumption | auto].
      * destruct Hin as [-> | Hin]; [|right; right; exact Hin].
        destruct Hor as [-> | ->]; [left; reflexivity | right; left; reflexivity].
Qed.

Lemma fold_Math_max_spec (xs : list num) :
  forall a : num,
    is_nan a = false ->
    (Exists (fun x => is_nan x = true) xs ->
     fold_left Math_max xs a = NaN)
    /\ (Forall (fun x => is_nan x = false) xs ->
        is_nan (fold_left Math_max xs a) = false
        /\ (a <=? fold_left Math_max xs a) = true
        /\ (forall x, In x xs -> (x <=? fold_left Math_max xs a) = true)
        /\ (fold_left Math_max xs a = a \/ In (fold_left Math_max xs a) xs)).
Proof.
  induction xs as [|x xs IH]; intros a Ha.
  - split; [intros H; inversion H|]. intros _. cbn.
    repeat split; auto. destruct a; try discriminate; cbn; auto.
    rewrite Rltb_ge by lra. reflexivity.
  - cbn [fold_left]. split.
    + intros H. inversion H as [? ? Hx | ? ? Hrest]; subst.
      * destruct x; try discriminate. rewrite Math_max_nan_r.
        apply fold_Math_max_nan_acc.
      * destruct (is_nan x) eqn:Ex.
        { destruct x; try discriminate. rewrite Math_max_nan_r.
          apply fold_Math_max_nan_acc. }
        destruct (Math_max_spec a x Ha Ex) as (Hm & _).
        apply (IH _ Hm). exact Hrest.
    + intros H. inversion H as [|? ? Hx Hrest]; subst.
      destruct (Math_max_spec a x Ha Hx) as (Hm & Hma & Hmx & Hor).
      destruct (IH _ Hm) as [_ IH'].
      destruct (IH' Hrest) as (Hn & Hle & Hall & Hin).
      split; [exact Hn|]. split; [eapply leb_trans; eassumption|].
      split.
      * intros y [-> | Hy]; [eapply leb_trans; eassumption | auto].
      * destruct Hin as [-> | Hin]; [|right; right; exact Hin].
        destruct Hor as [-> | ->]; [left; reflexivity | right; left; reflexivity].
Qed.

Lemma nan_free_or_not (xs : list num) :
  Forall (fun x => is_nan x = false) xs
  \/ Exists (fun x => is_nan x = true) xs.
Proof.
  induction xs as [|x xs [IH|IH]].
  - left; constructor.
  - destruct (is_nan x) eqn:E; [right; left; exact E | left; constructor; auto].
  - right; right; exact IH.
Qed.

Lemma Math_min_all_summary (xs : list num) :
  (is_nan (Math_min_all xs) = true
   <-> Exists (fun x => is_nan x = true) xs)
  /\ (is_nan (Math_min_all xs) = false ->
      forall x, In x xs -> (Math_min_all xs <=? x) = true)
  /\ (is_nan (Math_min_all xs) = false ->
      Math_min_all xs = PInf \/ In (Math_min_all xs) xs).
Proof.
  unfold Math_min_all.
  destruct (fold_Math_min_spec xs PInf eq_refl) as [Hnan Hok].
  destruct (nan_free_or_not xs) as [Hfree | Hex].
  - destruct (Hok Hfree) as (Hn & _ & Hall & Hin).
    split; [|split]; auto.
    split; intros H.
    + rewrite Hn in H. discriminate.
    + rewrite (Hnan H) in Hn. discriminate.
  - rewrite (Hnan Hex). split; [|split]; try discriminate.
    split; auto.
Qed.

Lemma Math_max_all_summary (xs : list num) :
  (is_nan (Math_max_all xs) = true
   <-> Exists (fun x => is_nan x = true) xs)
  /\ (is_nan (Math_max_all xs) = false ->
      forall x, In x xs -> (x <=? Math_max_all xs) = true)
  /\ (is_nan (Math_max_all xs) = false ->
      Math_max_all xs = NInf \/ In (Math_max_all xs) xs).
Proof.
  unfold Math_max_all.
  destruct (fold_Math_max_spec xs NInf eq_refl) as [Hnan Hok].
  destruct (nan_free_or_not xs) as [Hfree | Hex].
  - destruct (Hok Hfree) as (Hn & _ & Hall & Hin).
    split; [|split]; auto.
    split; intros H.
    + rewrite Hn in H. discriminate.
    + rewrite (Hnan H) in Hn. discriminate.
  - rewrite (Hnan Hex). split; [|split]; try discriminate.
    split; auto.
Qed.

(** X9: in every returned result, [min_soc] is NaN exactly when some
    recorded state of charge is NaN; otherwise it is a lower bound of the
    series.  With no step it is +Infinity and [final_soc] is undefined;
    [final_soc], when defined, is the last recorded value.  In every case
    [min_soc] is NaN, +Infinity or inside the band from 0.15 to 0.95. *)
Theorem min_soc_summarises_series
    (config : SimulationConfig) (r : SimulationResult) :
  runSimulation config = Returns r ->
  (is_nan (min_soc (metrics r)) = true
   <-> Exists (fun soc => is_nan soc = true) (battery_soc r))
  /\ (is_nan (min_soc (metrics r)) = false ->
      forall (i : nat) (soc : num),
        nth_error (battery_soc r) i = Some soc ->
        (min_soc (metrics r) <=? soc) = true)
  /\ (battery_soc r = [] ->
      min_soc (metrics r) = PInf /\ final_soc (metrics r) = None)
  /\ (forall soc : num,
        final_soc (metrics r) = Some soc ->
        nth_error (battery_soc r) (List.length (battery_soc r) - 1)
        = Some soc)
  /\ (is_nan (min_soc (metrics r)) = true
      \/ min_soc (metrics r) = PInf
      \/ in_range (min_soc (metrics r)) = true).
Proof.
  intros Hrun. apply runSimulation_Returns in Hrun.
  destruct Hrun as (pv & bat & n & _ & _ & _ & ->).
  cbn [evaluate metrics min_soc final_soc battery_soc].
  set (xs := Vars.batterySOC _).
  destruct (Math_min_all_summary xs) as (Hnan & Hall & Hin).
  split; [exact Hnan|]. split; [|split; [|split]].
  - intros Hm i soc Hi. apply (Hall Hm). eapply nth_error_In. exact Hi.
  - intros ->. split; reflexivity.
  - intros soc. unfold last_element. destruct xs; [discriminate | auto].
  - destruct (is_nan (Math_min_all xs)) eqn:E; [left; reflexivity|].
    right. destruct (Hin eq_refl) as [H | H]; [left; exact H|].
    right.
    pose proof (batterySOC_after config pv bat
                  (degraded_concentratorEff config)
                  (degraded_pvEff config pv) n) as Hband.
    cbv zeta in Hband. fold xs in Hband.
    rewrite Forall_forall in Hband.
    destruct (Hband _ H) as [Hn | Hr]; [|exact Hr].
    rewrite Hn in E. discriminate.
Qed.

(** X10: in every returned result, each peak is NaN exactly when its
    series holds a NaN, and otherwise bounds every value of its series
    from above; with no step both peaks are -Infinity. *)
Theorem peaks_bound_series
    (config : SimulationConfig) (r : SimulationResult) :
  runSimulation config = Returns r ->
  (is_nan (peak_power_generated (metrics r)) = true
   <-> Exists (fun g => is_nan g = true) (power_generated r))
  /\ (is_nan (peak_power_generated (metrics r)) = false ->
      forall (i : nat) (g : num),
        nth_error (power_generated r) i = Some g ->
        (g <=? peak_power_generated (metrics r)) = true)
  /\ (is_nan (peak_power_consumed (metrics r)) = true
      <-> Exists (fun c => is_nan c = true) (power_consumed r))
  /\ (is_nan (peak_power_consumed (metrics r)) = false ->
      forall (i : nat) (c : num),
        nth_error (power_consumed r) i = Some c ->
        (c <=? peak_power_consumed (metrics r)) = true)
  /\ (time r = [] ->
      peak_power_generated (metrics r) = NInf
      /\ peak_power_consumed (metrics r) = NInf).
Proof.
  intros Hrun.
  destruct (series_of_result _ _ Hrun)
    as (pv0 & bat0 & n0 & _ & _ & _ & Htime & Hgen & Hcons & _ & _).
  apply runSimulation_Returns in Hrun.
  destruct Hrun as (pv & bat & n & _ & _ & _ & ->).
  cbn [evaluate metrics peak_power_generated peak_power_consumed
       power_generated power_consumed time] in *.
  destruct (Math_max_all_summary
              (Vars.powerGenerated
                 (vars_after config pv bat (degraded_concentratorEff config)
                    (degraded_pvEff config pv) n)))
    as (Hnan_g & Hall_g & _).
  destruct (Math_max_all_summary
              (Vars.powerConsumed
                 (vars_after config pv bat (degraded_concentratorEff config)
                    (degraded_pvEff config pv) n)))
    as (Hnan_c & Hall_c & _).
  split; [exact Hnan_g|]. split; [|split; [exact Hnan_c|split]].
  - intros Hm i g Hi. apply (Hall_g Hm). eapply nth_error_In. exact Hi.
  - intros Hm i c Hi. apply (Hall_c Hm). eapply nth_error_In. exact Hi.
  - intros Hempty. rewrite Hgen, Hcons.
    rewrite Htime in Hempty. destruct n0; [split; reflexivity|].
    rewrite seq_S, map_app in Hempty.
    apply app_eq_nil in Hempty. destruct Hempty as [_ H]. discriminate H.
Qed.

(** ** Energy balance and average powers *)










(** * The catalog and the form *)

Ltac each_entry H :=
  repeat (destruct H as [<- | H]; [reflexivity|]); destruct H.

Lemma find_concentrator_complete (c : ConcentratorTechnology) :
  In c concentrators -> find_concentrator (Concentrator.name c) = Some c.
Proof. intros H. each_entry H. Qed.

Lemma find_pvCell_complete (p : PVTechnology) :
  In p pvCells -> find_pvCell (PV.name p) = Some p.
Proof. intros H. each_entry H. Qed.

Lemma find_battery_complete (b : BatteryTechnology) :
  In b batteries -> find_battery (Battery.name b) = Some b.
Proof. intros H. each_entry H. Qed.

Lemma find_concentrator_sound (name : string) (c : ConcentratorTechnology) :
  find_concentrator name = Some c ->
  In c concentrators /\ Concentrator.name c = name.
Proof.
  intros H. apply find_some in H. destruct H as [Hin Heq].
  split; [exact Hin | apply String.eqb_eq; exact Heq].
Qed.

Lemma find_pvCell_sound (name : string) (p : PVTechnology) :
  find_pvCell name = Some p -> In p pvCells /\ PV.name p = name.
Proof.
  intros H. apply find_some in H. destruct H as [Hin Heq].
  split; [exact Hin | apply String.eqb_eq; exact Heq].
Qed.

Lemma find_battery_sound (name : string) (b : BatteryTechnology) :
  find_battery name = Some b -> In b batteries /\ Battery.name b = name.
Proof.
  intros H. apply find_some in H. destruct H as [Hin Heq].
  split; [exact Hin | apply String.eqb_eq; exact Heq].
Qed.

(** X12: looking a technology up by name, as the form does with [find],
    returns that very entry for each of the 9 concentrators, 11 cells and
    12 batteries of the catalog (no two entries of a table share a name),
    and whatever a lookup returns is a catalog entry of the name asked
    for. *)
Theorem catalog_lookup_by_name :
  (forall c, In c concentrators ->
             find_concentrator (Concentrator.name c) = Some c)
  /\ (forall p, In p pvCells -> find_pvCell (PV.name p) = Some p)
  /\ (forall b, In b batteries -> find_battery (Battery.name b) = Some b)
  /\ (forall name c, find_concentrator name = Some c ->
                     In c concentrators /\ Concentrator.name c = name)
  /\ (forall name p, find_pvCell name = Some p ->
                     In p pvCells /\ PV.name p = name)
  /\ (forall name b, find_battery name = Some b ->
                     In b batteries /\ Battery.name b = name).
Proof.
  split; [exact find_concentrator_complete|].
  split; [exact find_pvCell_complete|].
  split; [exact find_battery_complete|].
  split; [exact find_concentrator_sound|].
  split; [exact find_pvCell_sound | exact find_battery_sound].
Qed.

(** ** The form *)

Lemma attempt_resolved
    (s : Simulator.State) (pv : PVTechnology) (bat : BatteryTechnology) :
  find_pvCell (Simulator.selectedPV s) = Some pv ->
  find_battery (Simulator.selectedBattery s) = Some bat ->
  Simulator.attempt s = runSimulation (config_of_form s pv bat).
Proof.
  intros Hpv Hbat. unfold Simulator.attempt. rewrite Hpv, Hbat.
  reflexivity.
Qed.


Lemma runSimulation_config_of_form
    (s : Simulator.State) (pv : PVTechnology) (bat : BatteryTechnology) :
  (exists r, runSimulation (config_of_form s pv bat) = Returns r)
  \/ (runSimulation (config_of_form s pv bat) = Unbounded
      /\ Simulator.durationHours s = PInf).
Proof.
  assert (Simulator.durationHours s <> PInf ->
          exists r, runSimulation (config_of_form s pv bat) = Returns r)
    as Hfinite.
  { intros Hd. apply runSimulation_total; [reflexivity|].
    rewrite floor_of_duration_infinite. exact Hd. }
  destruct (Simulator.durationHours s) eqn:Ed;
    try (left; apply Hfinite; discriminate).
  right. split; [|reflexivity].
  unfold runSimulation, for_loop.
  cbn [config_of_form make_config pvCell battery durationHours].
  rewrite Ed.
  replace (Math_floor (PInf / timeStep)) with PInf; [reflexivity|].
  symmetry. apply floor_of_duration_infinite. reflexivity.
Qed.


(** ** Ranges of the catalog *)

Ltac each_entry_in_range H :=
  repeat (destruct H as [<- | H];
          [unfold unit_interval, finite, positive_finite, nonneg,
             strictly_inside_unit; cbn; eval_R; repeat split|]);
  destruct H.

Lemma catalog_concentrator_in_range (c : ConcentratorTechnology) :
  In c concentrators -> unit_interval (Concentrator.efficiency c).
Proof. intros H. each_entry_in_range H. Qed.

Lemma catalog_pvCell_in_range (p : PVTechnology) :
  In p pvCells ->
  unit_interval (PV.efficiency p)
  /\ unit_interval (PV.degradation_rate p)
  /\ finite (PV.temp_coefficient p)
  /\ (PV.temp_coefficient p <? Fin 0) = true.
Proof. intros H. each_entry_in_range H. Qed.

Lemma catalog_battery_in_range (b : BatteryTechnology) :
  In b batteries ->
  finite (Battery.charge_efficiency b)
  /\ nonneg (Battery.charge_efficiency b)
  /\ positive_finite (Battery.discharge_efficiency b).
Proof. intros H. each_entry_in_range H. Qed.

(** ** Runs started from the form *)

Lemma run_soc_in_range
    (config : SimulationConfig) (r : SimulationResult) :
  runSimulation config = Returns r ->
  generation_inputs_in_range config ->
  generation_inputs_finite config ->
  battery_inputs_finite config ->
  Forall (fun soc => in_range soc = true) (battery_soc r).
Proof.
  intros Hrun (_ & _ & Hceff & Hpv) (Hfca & Hfpa & Hfy & Hny & Hftc)
    (Hfb & Hcap & Hbat).
  apply runSimulation_Returns in Hrun.
  destruct Hrun as (pv & bat & n & Epv & Ebat & _ & ->).
  rewrite Epv in Hpv, Hftc. rewrite Ebat in Hbat.
  destruct Hpv as [Heff Hrate]. destruct Hbat as [Hce Hde].
  destruct (degraded_concentratorEff_finite config Hceff Hfy Hny)
    as [cEff EcEff].
  destruct (degraded_pvEff_finite config pv Heff Hrate Hfy Hny) as [eff Eeff].
  destruct (positive_finite_cases _ Hcap) as (cap & Ecap & Hcap_pos).
  destruct (positive_finite_cases _ Hde) as (de & Ede & Hde_pos).
  destruct (finite_cases _ Hce) as [ce Ece].
  cbn [evaluate battery_soc]. rewrite EcEff, Eeff.
  apply (finite_run_invariant config pv bat cEff eff cap ce de);
    (assumption || lra).
Qed.

Lemma run_generated_nonneg
    (config : SimulationConfig) (r : SimulationResult) :
  runSimulation config = Returns r ->
  generation_inputs_in_range config ->
  generation_inputs_finite config ->
  Forall (fun g => (g >=? Fin 0) = true) (power_generated r).
Proof.
  intros Hrun (Hca & Hpa & Hce & Hpv) (Hfca & Hfpa & Hfy & Hny & Hftc).
  destruct (series_of_result _ _ Hrun)
    as (pv & bat & n & Epv & _ & _ & _ & Hgen & _ & _ & _).
  rewrite Epv in Hpv, Hftc. destruct Hpv as [Heff Hrate].
  rewrite Hgen. apply Forall_forall. intros g Hg.
  apply in_map_iff in Hg. destruct Hg as (i & <- & _).
  assert (not_negative
            (generated_at config pv (degraded_concentratorEff config)
               (degraded_pvEff config pv) i)) as Hnn.
  { apply step_pvPower_not_negative; auto.
    - apply degraded_concentratorEff_not_negative. exact Hce.
    - apply degraded_pvEff_not_negative; assumption. }
  destruct (degraded_concentratorEff_finite config Hce Hfy Hny) as [ce Ece].
  destruct (degraded_pvEff_finite config pv Heff Hrate Hfy Hny) as [e Ee].
  rewrite Ece, Ee in *.
  destruct (generated_at_finite config pv ce e i Hfca Hfpa Hftc) as [x Ex].
  rewrite Ex in *.
  unfold not_negative in Hnn. cbn in Hnn. apply Rltb_false_iff in Hnn.
  num_unfold. rewrite Rltb_ge by exact Hnn. reflexivity.
Qed.

Lemma concentratorDetails_in_catalog
    (s : Simulator.State) (c : ConcentratorTechnology) :
  Simulator.concentratorDetails s = Some c -> In c concentrators.
Proof.
  unfold Simulator.concentratorDetails.
  destruct (truthy _); [|discriminate].
  intros H. apply find_concentrator_sound in H. apply H.
Qed.

Lemma config_of_form_in_range
    (s : Simulator.State) (pv : PVTechnology) (bat : BatteryTechnology) :
  form_numbers_valid s -> In pv pvCells -> In bat batteries ->
  generation_inputs_in_range (config_of_form s pv bat)
  /\ generation_inputs_finite (config_of_form s pv bat)
  /\ battery_inputs_finite (config_of_form s pv bat)
  /\ charge_efficiency_nonneg (config_of_form s pv bat).
Proof.
  intros (Hfca & Hnca & Hfpa & Hnpa & Hcap & Hfb & Hfy & Hny & _) Hpv Hbat.
  destruct (catalog_pvCell_in_range pv Hpv) as (He & Hr & Htc & _).
  destruct (catalog_battery_in_range bat Hbat) as (Hce & Hcen & Hde).
  unfold generation_inputs_in_range, generation_inputs_finite,
    battery_inputs_finite, charge_efficiency_nonneg,
    concentrator_efficiency_is.
  cbn [config_of_form make_config concentrator pvCell battery
       concentratorArea pvArea batteryCapacity baseLoad yearsInOperation].
  repeat split; try assumption.
  destruct (Simulator.concentratorDetails s) as [c|] eqn:Ec; [|exact I].
  apply catalog_concentrator_in_range.
  apply (concentratorDetails_in_catalog s). exact Ec.
Qed.

(** What the handler leaves behind when both selections are in the
    catalog and the numbers are valid. *)
Lemma handleRunSimulation_sound
    (s : Simulator.State) (pv : PVTechnology) (bat : BatteryTechnology) :
  form_numbers_valid s ->
  find_pvCell (Simulator.selectedPV s) = Some pv ->
  find_battery (Simulator.selectedBattery s) = Some bat ->
  exists (r : SimulationResult) (s' : Simulator.State),
    runSimulation (config_of_form s pv bat) = Returns r
    /\ Simulator.handleRunSimulation s = Some s'
    /\ Simulator.results s' = Some r
    /\ Simulator.error s' = None
    /\ Simulator.isRunning s' = false
    /\ Forall (fun soc => in_range soc = true) (battery_soc r)
    /\ Forall (fun g => (g >=? Fin 0) = true) (power_generated r).
Proof.
  intros Hvalid Hpv Hbat.
  pose proof (proj1 (find_pvCell_sound _ _ Hpv)) as Hpv_in.
  pose proof (proj1 (find_battery_sound _ _ Hbat)) as Hbat_in.
  destruct (config_of_form_in_range s pv bat Hvalid Hpv_in Hbat_in)
    as (Hrange & Hfinite & Hbattery & _).
  destruct (runSimulation_config_of_form s pv bat) as [[r Hr] | [_ Hd]].
  - exists r. eexists. split; [exact Hr|].
    unfold Simulator.handleRunSimulation.
    rewrite (attempt_resolved s pv bat Hpv Hbat), Hr.
    split; [reflexivity|]. cbn.
    repeat split.
    + apply (run_soc_in_range _ _ Hr); assumption.
    + apply (run_generated_nonneg _ _ Hr); assumption.
  - exfalso. destruct Hvalid as (_ & _ & _ & _ & _ & _ & _ & _ & Hne).
    contradiction.
Qed.




(** ** The presets *)

Lemma time_length_48h
    (config : SimulationConfig) (pv : PVTechnology) (bat : BatteryTechnology)
    (r : SimulationResult) :
  pvCell config = Some pv -> battery config = Some bat ->
  durationHours config = Fin 48 ->
  runSimulation config = Returns r ->
  List.length (time r) = 480%nat.
Proof.
  intros Hpv Hbat Hd Hrun.
  rewrite (runSimulation_48h config pv bat Hpv Hbat Hd) in Hrun.
  inversion Hrun. cbn [evaluate time].
  rewrite time_after, length_map, length_seq. reflexivity.
Qed.

Lemma preset_form_valid (preset : PresetConfig) (s : Simulator.State) :
  In preset presets ->
  form_numbers_valid (Simulator.handlePresetSelect preset s)
  /\ Simulator.durationHours (Simulator.handlePresetSelect preset s) = Fin 48.
Proof.
  intros H.
  repeat (destruct H as [<- | H];
          [unfold form_numbers_valid, finite, nonneg, positive_finite; cbn;
           eval_R; repeat split; discriminate|]).
  destruct H.
Qed.

Lemma preset_selections_resolve (preset : PresetConfig) :
  In preset presets ->
  (forall name : string,
      Preset.concentrator preset = Some name ->
      exists c, find_concentrator name = Some c)
  /\ (exists pv, find_pvCell (Preset.pvCell preset) = Some pv)
  /\ (exists bat, find_battery (Preset.battery preset) = Some bat).
Proof.
  intros H.
  repeat (destruct H as [<- | H];
          [split; [intros name Hn; inversion Hn; eexists; reflexivity|];
           split; eexists; reflexivity|]).
  destruct H.
Qed.

(** X15: for each of the five presets, every technology it names is in
    the catalog, and selecting it and running the simulation, from any
    state of the form, stores a result of 480 steps with no error and
    with every state of charge inside the band. *)
Theorem every_preset_runs (preset : PresetConfig) (s : Simulator.State) :
  In preset presets ->
  (forall name : string,
      Preset.concentrator preset = Some name ->
      exists c, find_concentrator name = Some c)
  /\ exists (pv : PVTechnology) (bat : BatteryTechnology)
            (r : SimulationResult) (s' : Simulator.State),
       find_pvCell (Preset.pvCell preset) = Some pv
       /\ find_battery (Preset.battery preset) = Some bat
       /\ Simulator.handleRunSimulation
            (Simulator.handlePresetSelect preset s) = Some s'
       /\ Simulator.results s' = Some r
       /\ Simulator.error s' = None
       /\ List.length (time r) = 480%nat
       /\ Forall (fun soc => in_range soc = true) (battery_soc r).
Proof.
  intros Hin.
  destruct (preset_selections_resolve preset Hin)
    as (Hconc & [pv Hpv] & [bat Hbat]).
  split; [exact Hconc|].
  destruct (preset_form_valid preset s Hin) as [Hvalid Hduration].
  destruct (handleRunSimulation_sound
              (Simulator.handlePresetSelect preset s) pv bat Hvalid Hpv Hbat)
    as (r & s' & Hr & Hrun & Hres & Herr & _ & Hsoc & _).
  exists pv, bat, r, s'. repeat split; try assumption.
  apply (time_length_48h _ pv bat r) in Hr; auto.
Qed.

Lemma every_preset_runs_witness :
  exists (r : SimulationResult) (s' : Simulator.State),
    Simulator.handleRunSimulation
      (Simulator.handlePresetSelect
         (make_preset "no-concentrator" "No Concentrator"
            "Direct PV array without concentration optics"
            None "Quad-junction IMM" "Lithium-ion (NMC)"
            (Fin 0) (Fin 8.0) (Fin 10000) (Fin 100) (Fin 48) (Fin 0))
         Simulator.initial) = Some s'
    /\ Simulator.results s' = Some r
    /\ List.length (time r) = 480%nat.
Proof.
  destruct (every_preset_runs
              (make_preset "no-concentrator" "No Concentrator"
                 "Direct PV array without concentration optics"
                 None "Quad-junction IMM" "Lithium-ion (NMC)"
                 (Fin 0) (Fin 8.0) (Fin 10000) (Fin 100) (Fin 48) (Fin 0))
              Simulator.initial)
    as (_ & pv & bat & r & s' & _ & _ & Hrun & Hres & _ & Hlen & _).
  { cbn. auto 10. }
  exists r, s'. repeat split; assumption.
Defined.

(** ** The chart *)

Lemma nth_error_map_indexed {A B : Type}
    (f : A -> nat -> B) (xs : list A) :
  forall (start i : nat),
    nth_error (map_indexed f start xs) i
    = option_map (fun x => f x (start + i)%nat) (nth_error xs i).
Proof.
  induction xs as [|x xs IH]; intros start i.
  - destruct i; reflexivity.
  - destruct i as [|i]; cbn [map_indexed nth_error option_map].
    + rewrite Nat.add_0_r. reflexivity.
    + rewrite IH. replace (S start + i)%nat with (start + S i)%nat by lia.
      reflexivity.
Qed.

Lemma length_map_indexed {A B : Type}
    (f : A -> nat -> B) (xs : list A) :
  forall start : nat,
    List.length (map_indexed f start xs) = List.length xs.
Proof.
  induction xs as [|x xs IH]; intros start; cbn; [reflexivity|].
  rewrite IH. reflexivity.
Qed.

Lemma percent_of_soc (soc : num) :
  nan_or_in_range soc ->
  is_nan (soc * Fin 100) = true
  \/ (Fin 15 <=? soc * Fin 100) && (soc * Fin 100 <=? Fin 95) = true.
Proof.
  intros [H | H].
  - left. destruct soc; try discriminate. reflexivity.
  - right. destruct soc as [| | | a]; try discriminate.
    apply in_range_Fin_iff in H. cbn [mul]. num_unfold.
    rewrite !Rltb_ge by lra. reflexivity.
Qed.

(** X16: the chart built from a returned result has one point per step;
    the point of step [i] carries [time[i]], defined values of
    [power_generated[i]] and [power_consumed[i]] (no read is out of
    bounds), and [battery_soc[i]] times 100, which is NaN or between 15
    and 95. *)
Theorem chart_points_match_series
    (config : SimulationConfig) (r : SimulationResult) :
  runSimulation config = Returns r ->
  List.length (Simulator.chartData (Some r)) = List.length (time r)
  /\ forall (i : nat) (point : ChartPoint.t),
       nth_error (Simulator.chartData (Some r)) i = Some point ->
       nth_error (time r) i = Some (ChartPoint.time point)
       /\ exists g c soc : num,
            ChartPoint.generated point = Some g
            /\ nth_error (power_generated r) i = Some g
            /\ ChartPoint.consumed point = Some c
            /\ nth_error (power_consumed r) i = Some c
            /\ nth_error (battery_soc r) i = Some soc
            /\ ChartPoint.soc point = soc * Fin 100
            /\ (is_nan (ChartPoint.soc point) = true
                \/ (Fin 15 <=? ChartPoint.soc point)
                   && (ChartPoint.soc point <=? Fin 95) = true).
Proof.
  intros Hrun. unfold Simulator.chartData.
  split; [apply length_map_indexed|].
  intros i point Hpoint.
  rewrite nth_error_map_indexed in Hpoint. cbn [Nat.add] in Hpoint.
  destruct (nth_error (time r) i) as [t|] eqn:Et; [|discriminate].
  cbn [option_map] in Hpoint. inversion Hpoint as [Epoint]. clear Hpoint.
  clear Epoint.
  cbn [ChartPoint.time ChartPoint.generated ChartPoint.consumed
       ChartPoint.soc].
  split; [reflexivity|].
  destruct (series_of_result _ _ Hrun)
    as (pv & bat & n & _ & _ & _ & Htime & Hgen & Hcons & _ & Hlen).
  assert (i < n)%nat as Hi.
  { rewrite Htime in Et. apply nth_error_map_seq_inv in Et. apply Et. }
  destruct (nth_error (battery_soc r) i) as [soc|] eqn:Es.
  - exists (generated_at config pv (degraded_concentratorEff config)
              (degraded_pvEff config pv) i), (consumed_at config i), soc.
    rewrite Hgen, Hcons, !nth_error_map_seq by exact Hi.
    repeat split.
    apply percent_of_soc.
    apply runSimulation_Returns in Hrun.
    destruct Hrun as (pv' & bat' & n' & _ & _ & _ & ->).
    cbn [evaluate battery_soc] in Es. apply nth_error_In in Es.
    revert soc Es. apply Forall_forall. apply batterySOC_after.
  - exfalso. apply nth_error_None in Es. lia.
Qed.

Lemma chart_points_match_series_witness :
  exists r,
    runSimulation preset_baseline = Returns r
    /\ List.length (Simulator.chartData (Some r)) = List.length (time r).
Proof.
  destruct preset_baseline_returns as [r Hr].
  exists r. split; [exact Hr|].
  exact (proj1 (chart_points_match_series preset_baseline r Hr)).
Defined.

(** ** Runs of the baseline preset *)




Lemma health_score_and_viability_witness :
  exists r,
    runSimulation preset_baseline = Returns r
    /\ (system_health (metrics r) <= 5)%nat.
Proof.
  destruct preset_baseline_returns as [r Hr].
  exists r. split; [exact Hr|].
  exact (proj1 (health_score_and_viability preset_baseline r Hr)).
Defined.

Lemma min_soc_summarises_series_witness :
  exists r,
    runSimulation preset_baseline = Returns r
    /\ (is_nan (min_soc (metrics r)) = true
        \/ min_soc (metrics r) = PInf
        \/ in_range (min_soc (metrics r)) = true).
Proof.
  destruct preset_baseline_returns as [r Hr].
  exists r. split; [exact Hr|].
  apply (min_soc_summarises_series preset_baseline r Hr).
Defined.

Lemma peaks_bound_series_witness :
  exists r,
    runSimulation preset_baseline = Returns r
    /\ (is_nan (peak_power_generated (metrics r)) = false ->
        forall (i : nat) (g : num),
          nth_error (power_generated r) i = Some g ->
          (g <=? peak_power_generated (metrics r)) = true).
Proof.
  destruct preset_baseline_returns as [r Hr].
  exists r. split; [exact Hr|].
  apply (peaks_bound_series preset_baseline r Hr).
Defined.


